(** * py-books-scraper: a shallow embedding of [scrape_books.py] and
      [export_first_10.py], and the properties of the crawl, the extractors,
      the price normaliser, the deduplicating store path and the export.

    Conventions of the embedding.
    - A Python [str] is a [string] holding its UTF-8 bytes; [Optional[T]]
      is [option T], with [None] for Python's [None].
    - A [float] is represented by the exact decimal number that [float()]
      rounds to the nearest double: a rational whose denominator is a power
      of ten.
    - The SQLite table [libros] is the list of its rows in insertion order,
      as the database file holds them; the rows a connection has inserted
      and not yet committed are kept apart, and the connection sees them
      after the rows of the file.
    - Code with effects (logging, HTTP, SQL, console, files) runs in a state
      monad over [Mundo]; what the outside world answers (the parsed HTML
      tree, joined addresses, HTTP bodies, store faults, the clock) is a
      variable of the section that holds the crawler.
    - A call that may raise returns an [option], with [None] for the
      exception: [ValueError] for [float] and [urljoin], a
      [RequestException] for a GET; the outcome of an INSERT has a type of
      its own. *)

From Stdlib Require Import String Ascii ZArith QArith Lia.
From stdpp Require Import base option list strings pretty gmap sorting.

Local Open Scope string_scope.
Local Open Scope Z_scope.
Local Open Scope list_scope.

(** ** Python strings *)

(** Truth value of an [Optional[str]]: [None] and the empty string are
    false. *)
Definition verdadero (o : option string) : bool :=
  match o with
  | None => false
  | Some s => negb (String.eqb s "")
  end.

(** The string of an [Optional[str]] that Python takes as true: what a
    branch guarded by [if x:] works on. *)
Definition no_vacio (o : option string) : option string :=
  match o with
  | Some s => if String.eqb s "" then None else Some s
  | None => None
  end.

Definition es_digito (c : ascii) : bool :=
  ((48 <=? nat_of_ascii c) && (nat_of_ascii c <=? 57))%nat.

Definition es_punto (c : ascii) : bool := Ascii.eqb c "."%char.

(** [re.sub(r"[^0-9.]", "", s)]: every character outside the class is
    dropped. The bytes of a multi-byte UTF-8 character are all above 127, so
    dropping bytes and dropping code points leave the same string. *)
Fixpoint re_sub_no_numerico (s : string) : string :=
  match s with
  | EmptyString => EmptyString
  | String c s' =>
      if es_digito c || es_punto c
      then String c (re_sub_no_numerico s')
      else re_sub_no_numerico s'
  end.

Definition valor_digito (c : ascii) : Z := Z.of_nat (nat_of_ascii c) - 48.

(** The scan behind [float(numero)] for a string of digits and points:
    [mant] is the number read so far with the point removed, [ndig] the
    count of digits, [frac] the count of digits after the point ([None]
    before any point). A second point and any other character stop the
    scan with [ValueError]. *)
Fixpoint float_scan (mant : Z) (ndig : nat) (frac : option nat) (s : string)
  : option (Z * nat * option nat) :=
  match s with
  | EmptyString => Some (mant, ndig, frac)
  | String c s' =>
      if es_digito c then
        float_scan (10 * mant + valor_digito c) (S ndig) (S <$> frac) s'
      else if es_punto c then
        match frac with
        | None => float_scan mant ndig (Some 0%nat) s'
        | Some _ => None
        end
      else None
  end.

Fixpoint pot10 (k : nat) : positive :=
  match k with
  | O => 1%positive
  | S k' => (10 * pot10 k')%positive
  end.

(** [float(numero)] on the strings [normalizar_precio] hands it, which hold
    only digits and points: [None] stands for [ValueError]. Python accepts
    [digits], [digits.], [.digits] and [digits.digits], and nothing without
    a digit. The value is [mant / 10^frac]. *)
Definition py_float (numero : string) : option Q :=
  match float_scan 0 0 None numero with
  | Some (mant, ndig, frac) =>
      match ndig with
      | O => None
      | S _ => Some (Qmake mant (pot10 (default 0%nat frac)))
      end
  | None => None
  end.

(** ** The world the programs act on *)

(** Severity of a [logging] call. *)
Inductive Nivel := INFO | WARNING | ERROR.

(** Argument of a [logging] call: [logging] keeps the format and its
    arguments apart. [ArgExc] is a caught exception object. *)
Inductive Arg :=
| ArgStr (s : string)
| ArgInt (z : Z)
| ArgNone
| ArgExc.

Definition arg_de (o : option string) : Arg :=
  match o with
  | Some s => ArgStr s
  | None => ArgNone
  end.

Record Entrada := { nivel : Nivel; formato : string; args : list Arg }.

(** A row of the table [libros] as [crear_conexion] declares it. The
    columns [titulo .. categoria] come from the INSERT of [insertar_libro],
    [fila_id] from AUTOINCREMENT and [fila_fecha] from CURRENT_TIMESTAMP. *)
Record Fila := {
  fila_id : Z;
  fila_titulo : string;
  fila_precio : option Q;
  fila_disponibilidad : option string;
  fila_rating : option Z;
  fila_url_imagen : option string;
  fila_descripcion : option string;
  fila_upc : option string;
  fila_categoria : option string;
  fila_fecha : string
}.

(** SQL statements the two programs send to the connection. *)
Inductive Sentencia :=
| CreateTableIfNotExists
| SelectUpc (u : string)
| InsertLibro
| SelectPrimeros10.

Record Mundo := {
  libros : list Fila;          (* table libros of the database file: the
                                  committed rows, in insertion order *)
  secuencia : Z;               (* sqlite_sequence of the file: largest id
                                  of a committed INSERT *)
  pendientes : list Fila;      (* rows inserted in the open transaction of
                                  the connection, not committed *)
  reloj : nat;                 (* external calls (GET, INSERT) issued so far *)
  sql : list Sentencia;        (* statements executed, oldest first *)
  registro : list Entrada;     (* log records, oldest first *)
  pausas : nat;                (* calls of time.sleep *)
  consola : list string;       (* lines printed *)
  archivos : gmap string string (* files written: path to content *)
}.

Definition con_libros (f : list Fila -> list Fila) (w : Mundo) : Mundo :=
  {| libros := f (libros w); secuencia := secuencia w;
     pendientes := pendientes w; reloj := reloj w;
     sql := sql w; registro := registro w; pausas := pausas w;
     consola := consola w; archivos := archivos w |}.
Definition con_secuencia (z : Z) (w : Mundo) : Mundo :=
  {| libros := libros w; secuencia := z;
     pendientes := pendientes w; reloj := reloj w;
     sql := sql w; registro := registro w; pausas := pausas w;
     consola := consola w; archivos := archivos w |}.
Definition con_pendientes (f : list Fila -> list Fila) (w : Mundo) : Mundo :=
  {| libros := libros w; secuencia := secuencia w;
     pendientes := f (pendientes w); reloj := reloj w;
     sql := sql w; registro := registro w; pausas := pausas w;
     consola := consola w; archivos := archivos w |}.
Definition con_reloj (n : nat) (w : Mundo) : Mundo :=
  {| libros := libros w; secuencia := secuencia w;
     pendientes := pendientes w; reloj := n;
     sql := sql w; registro := registro w; pausas := pausas w;
     consola := consola w; archivos := archivos w |}.
Definition con_sql (f : list Sentencia -> list Sentencia) (w : Mundo) : Mundo :=
  {| libros := libros w; secuencia := secuencia w;
     pendientes := pendientes w; reloj := reloj w;
     sql := f (sql w); registro := registro w; pausas := pausas w;
     consola := consola w; archivos := archivos w |}.
Definition con_registro (f : list Entrada -> list Entrada) (w : Mundo) : Mundo :=
  {| libros := libros w; secuencia := secuencia w;
     pendientes := pendientes w; reloj := reloj w;
     sql := sql w; registro := f (registro w); pausas := pausas w;
     consola := consola w; archivos := archivos w |}.
Definition con_pausas (n : nat) (w : Mundo) : Mundo :=
  {| libros := libros w; secuencia := secuencia w;
     pendientes := pendientes w; reloj := reloj w;
     sql := sql w; registro := registro w; pausas := n;
     consola := consola w; archivos := archivos w |}.
Definition con_consola (f : list string -> list string) (w : Mundo) : Mundo :=
  {| libros := libros w; secuencia := secuencia w;
     pendientes := pendientes w; reloj := reloj w;
     sql := sql w; registro := registro w; pausas := pausas w;
     consola := f (consola w); archivos := archivos w |}.
Definition con_archivos (f : gmap string string -> gmap string string)
    (w : Mundo) : Mundo :=
  {| libros := libros w; secuencia := secuencia w;
     pendientes := pendientes w; reloj := reloj w;
     sql := sql w; registro := registro w; pausas := pausas w;
     consola := consola w; archivos := f (archivos w) |}.

(** The table and the sequence as the connection sees them: the rows of
    the file, then the rows of its open transaction, each of which took
    the next id. *)
Definition vista (w : Mundo) : list Fila := libros w ++ pendientes w.
Definition secuencia_vista (w : Mundo) : Z :=
  secuencia w + Z.of_nat (length (pendientes w)).

(** COMMIT: the rows of the open transaction go to the file. *)
Definition confirmar (w : Mundo) : Mundo :=
  con_pendientes (fun _ => [])
    (con_secuencia (secuencia_vista w) (con_libros (fun _ => vista w) w)).

(** A connection without open transaction: one just opened, or one that
    is closed, which rolls back what was pending. *)
Definition sin_transaccion (w : Mundo) : Mundo := con_pendientes (fun _ => []) w.

(** ** The monad of effects *)

Definition M (A : Type) : Type := Mundo -> A * Mundo.

Definition ret {A} (a : A) : M A := fun w => (a, w).
Definition bind {A B} (m : M A) (k : A -> M B) : M B :=
  fun w => let (a, w') := m w in k a w'.
Definition modificar (f : Mundo -> Mundo) : M unit := fun w => (tt, f w).
Definition leer {A} (f : Mundo -> A) : M A := fun w => (f w, w).

Notation "'hacer' x <- m ; k" := (bind m (fun x => k))
  (at level 10, x name, m at level 100, k at level 200,
   format "'[v' 'hacer'  x  <-  m ; '/' k ']'").
Notation "'hacer' ' p <- m ; k" := (bind m (fun x => match x with p => k end))
  (at level 10, p pattern, m at level 100, k at level 200,
   format "'[v' 'hacer'  ' p  <-  m ; '/' k ']'").
Notation "m ;;; k" := (bind m (fun _ => k))
  (at level 100, k at level 200, right associativity).

(** A [for] loop whose body updates the local variables [s]. *)
Fixpoint para_cada {A S} (l : list A) (cuerpo : A -> S -> M S) (s : S) : M S :=
  match l with
  | [] => ret s
  | x :: l' => hacer s' <- cuerpo x s; para_cada l' cuerpo s'
  end.

(** A [for] loop whose body may raise: the exception of a run of the body
    ends the loop and goes on to the caller. *)
Fixpoint para_cada_o {A S} (l : list A) (cuerpo : A -> S -> M (option S))
    (s : S) : M (option S) :=
  match l with
  | [] => ret (Some s)
  | x :: l' =>
      hacer r <- cuerpo x s;
      match r with
      | Some s' => para_cada_o l' cuerpo s'
      | None => ret None
      end
  end.

Definition logging (n : Nivel) (fmt : string) (a : list Arg) : M unit :=
  modificar (con_registro (fun r => r ++ [{| nivel := n; formato := fmt; args := a |}])).

(** ** [normalizar_precio] *)

Definition normalizar_precio (precio_str : option string) : M (option Q) :=
  match no_vacio precio_str with
  | None => ret None
  | Some p =>
      let numero := re_sub_no_numerico p in
      if String.eqb numero "" then ret None
      else
        match py_float numero with
        | Some x => ret (Some x)
        | None =>
            logging WARNING "No se pudo convertir el precio: %s" [ArgStr p];;;
            ret None
        end
  end.

(** ** [str.strip] *)

(** The characters [str.strip()] removes, as their UTF-8 bytes: the code
    points for which [str.isspace] holds. *)
Definition espacios : list (list nat) :=
  [ [9]; [10]; [11]; [12]; [13]; [28]; [29]; [30]; [31]; [32];
    [194; 133]; [194; 160]; [225; 154; 128];
    [226; 128; 128]; [226; 128; 129]; [226; 128; 130]; [226; 128; 131];
    [226; 128; 132]; [226; 128; 133]; [226; 128; 134]; [226; 128; 135];
    [226; 128; 136]; [226; 128; 137]; [226; 128; 138];
    [226; 128; 168]; [226; 128; 169]; [226; 128; 175];
    [226; 129; 159]; [227; 128; 128] ]%nat.

Fixpoint quitar_prefijo (p : list nat) (l : list ascii) : option (list ascii) :=
  match p, l with
  | [], _ => Some l
  | _ :: _, [] => None
  | b :: p', c :: l' =>
      if (b =? nat_of_ascii c)%nat then quitar_prefijo p' l' else None
  end.

(** What is left of [l] after one leading character of [pats], if it
    starts with one. *)
Fixpoint quitar_uno (pats : list (list nat)) (l : list ascii)
  : option (list ascii) :=
  match pats with
  | [] => None
  | p :: pats' =>
      match quitar_prefijo p l with
      | Some r => Some r
      | None => quitar_uno pats' l
      end
  end.

Fixpoint quitar_todos (n : nat) (pats : list (list nat)) (l : list ascii)
  : list ascii :=
  match n with
  | O => l
  | S n' =>
      match quitar_uno pats l with
      | Some r => quitar_todos n' pats r
      | None => l
      end
  end.

Definition lstrip_bytes (pats : list (list nat)) (l : list ascii) : list ascii :=
  quitar_todos (length l) pats l.

Definition strip (s : string) : string :=
  let l := lstrip_bytes espacios (list_ascii_of_string s) in
  let r := lstrip_bytes (map (@rev nat) espacios) (rev l) in
  string_of_list_ascii (rev r).

(** ** The tree [BeautifulSoup] builds *)

(** A node of the tree: a [NavigableString] or a [Tag] with its name, its
    attribute dictionary, the list bs4 keeps for the multi-valued attribute
    [class] (empty when the attribute is missing) and its children. *)
#[warnings="-register-all"]
Inductive nodo :=
| Texto (s : string)
| Etiqueta (name : string) (attrs : gmap string string)
    (clases : list string) (contents : list nodo).

(** A tag of a tree, with its ancestors, nearest first. *)
Record Tag := { padres : list nodo; este : nodo }.

(** The nodes below [n] in document order. *)
Fixpoint descendants (ps : list nodo) (n : nodo) : list Tag :=
  match n with
  | Texto _ => []
  | Etiqueta _ _ _ contents =>
      (fix hijos (l : list nodo) : list Tag :=
         match l with
         | [] => []
         | h :: l' =>
             {| padres := n :: ps; este := h |}
               :: descendants (n :: ps) h ++ hijos l'
         end) contents
  end.

(** The root object: a tag named [[document]] over the top-level nodes. *)
Definition documento (top : list nodo) : Tag :=
  {| padres := []; este := Etiqueta "[document]" ∅ [] top |}.

(** [tag.get(key)] for a single-valued attribute. *)
Definition get (t : Tag) (key : string) : option string :=
  match este t with
  | Texto _ => None
  | Etiqueta _ attrs _ _ => attrs !! key
  end.

(** [tag.get("class", [])]. *)
Definition get_class (t : Tag) : list string :=
  match este t with
  | Texto _ => []
  | Etiqueta _ _ clases _ => clases
  end.

(** The strings below a node, in document order. *)
Fixpoint strings (n : nodo) : list string :=
  match n with
  | Texto s => [s]
  | Etiqueta _ _ _ contents =>
      (fix hijos (l : list nodo) : list string :=
         match l with
         | [] => []
         | h :: l' => strings h ++ hijos l'
         end) contents
  end.

(** [tag.get_text(strip=True)]: every string below the tag is stripped, the
    empty ones are dropped and the rest are joined. *)
Definition get_text_strip (t : Tag) : string :=
  let limpias := filter (fun s => s ≠ "") (map strip (strings (este t))) in
  foldr String.append "" limpias.

(** *** CSS selectors *)

(** A compound selector [name.c1.c2...], and a selector: compound
    selectors joined by the descendant combinator, leftmost first. *)
Record Compuesto := { sel_name : string; sel_clases : list string }.
Definition Selector := list Compuesto.

Definition coincide (c : Compuesto) (n : nodo) : bool :=
  match n with
  | Texto _ => false
  | Etiqueta name _ clases _ =>
      String.eqb name (sel_name c)
      && forallb (fun k => bool_decide (k ∈ clases)) (sel_clases c)
  end.

(** [cs], nearest first, is matched by some chain of ancestors in [ps]. *)
Fixpoint coincide_padres (cs : list Compuesto) (ps : list nodo) : bool :=
  match cs with
  | [] => true
  | c :: cs' =>
      (fix busca (l : list nodo) : bool :=
         match l with
         | [] => false
         | a :: l' => (coincide c a && coincide_padres cs' l') || busca l'
         end) ps
  end.

Definition coincide_selector (sel : Selector) (t : Tag) : bool :=
  match rev sel with
  | [] => false
  | c :: cs => coincide c (este t) && coincide_padres cs (padres t)
  end.

(** [tag.select(sel)]: the tags below [tag] that match, in document order;
    the ancestors a combinator looks at may lie above [tag]. *)
Definition select (sel : Selector) (t : Tag) : list Tag :=
  filter (fun u => coincide_selector sel u = true) (descendants (padres t) (este t)).

Definition select_one (sel : Selector) (t : Tag) : option Tag :=
  head (select sel t).

Definition tiene_name (nm : string) (t : Tag) : bool :=
  match este t with
  | Texto _ => false
  | Etiqueta name _ _ _ => String.eqb name nm
  end.

(** [tag.find(nm)]: the first tag below [tag] with that name. *)
Definition find (nm : string) (t : Tag) : option Tag :=
  head (filter (fun u => tiene_name nm u = true) (descendants (padres t) (este t))).

(** [soup.find(id=v)] together with the nodes that follow the tag found in
    document order (its [next_elements]). *)
Fixpoint find_id_en (v : string) (l : list Tag) : option (Tag * list Tag) :=
  match l with
  | [] => None
  | u :: l' =>
      if bool_decide (get u "id" = Some v) then Some (u, l')
      else find_id_en v l'
  end.

Definition find_id (v : string) (soup : Tag) : option (Tag * list Tag) :=
  find_id_en v (descendants (padres soup) (este soup)).

(** [tag.find_next(nm)] over the [next_elements] of a tag. *)
Definition find_next (nm : string) (siguientes : list Tag) : option Tag :=
  head (filter (fun u => tiene_name nm u = true) siguientes).

(** ** The scraper, [scrape_books.py] *)

Definition BASE_URL : string := "https://books.toscrape.com/".

Definition RATING_MAP : gmap string Z :=
  list_to_map [("One", 1); ("Two", 2); ("Three", 3); ("Four", 4); ("Five", 5)].

(** The dictionary [parsear_libros_catalogo] builds for a book; [main]
    adds the keys [descripcion], [upc] and [categoria], which
    [insertar_libro] reads with [dict.get]. *)
Record Libro := {
  titulo : string;
  precio : option Q;
  disponibilidad : option string;
  rating : option Z;
  url_imagen : option string;
  detail_url : option string;
  descripcion : option string;
  upc : option string;
  categoria : option string
}.

(** The dictionary [parsear_detalle] returns. *)
Record Detalle := {
  det_descripcion : option string;
  det_upc : option string;
  det_categoria : option string
}.

(** Outcome of a statement that may raise [sqlite3.DatabaseError]. *)
Inductive Resultado := Hecho | DatabaseError.

(** The selectors of the source. *)
Definition sel (name : string) (cl : list string) : Compuesto :=
  {| sel_name := name; sel_clases := cl |}.
Definition article_product_pod : Selector := [sel "article" ["product_pod"]].
Definition h3_a : Selector := [sel "h3" []; sel "a" []].
Definition p_price_color : Selector := [sel "p" ["price_color"]].
Definition p_instock_availability : Selector := [sel "p" ["instock"; "availability"]].
Definition p_star_rating : Selector := [sel "p" ["star-rating"]].
Definition div_image_container_img : Selector :=
  [sel "div" ["image_container"]; sel "img" []].
Definition table_table_table_striped : Selector :=
  [sel "table" ["table"; "table-striped"]].
Definition tr : Selector := [sel "tr" []].
Definition ul_breadcrumb_li_a : Selector :=
  [sel "ul" ["breadcrumb"]; sel "li" []; sel "a" []].

Section Scraper.

(** The tree the [lxml] builder makes of a page: its top-level nodes. *)
Variable lxml : string -> list nodo.
(** [urllib.parse.urljoin]: the joined address, or [None] when it raises
    [ValueError], as it does for an address whose bracketed host is
    malformed. *)
Variable urljoin : string -> string -> option string.
(** What the [n]-th external call gets when it is a GET of an address:
    the response text, or [None] when [requests.get] or
    [raise_for_status] raises a [RequestException]. *)
Variable http_get : nat -> string -> option string.
(** Whether the [n]-th external call, an INSERT, raises
    [sqlite3.DatabaseError] in [conn.execute], and whether, the INSERT
    accepted, the [conn.commit] that follows it raises. A call that raises
    is undone alone and leaves the open transaction as it was, which is
    what SQLite does when the database is locked. Opening the connection,
    CREATE TABLE and a SELECT are taken to succeed. *)
Variable insert_falla : nat -> bool.
Variable commit_falla : nat -> bool.
(** CURRENT_TIMESTAMP at the [n]-th external call. *)
Variable ahora : nat -> string.

Definition BeautifulSoup (html : string) : Tag := documento (lxml html).

(** [sqlite3.connect] gives a new connection, and the table is created
    when it is not there. *)
Definition crear_conexion : M unit :=
  modificar sin_transaccion;;;
  modificar (con_sql (fun l => l ++ [CreateTableIfNotExists])).

Definition obtener_html (url : string) : M (option string) :=
  logging INFO "GET %s" [ArgStr url];;;
  hacer n <- leer reloj;
  modificar (con_reloj (S n));;;
  match http_get n url with
  | Some text =>
      hacer k <- leer pausas;
      modificar (con_pausas (S k));;;
      ret (Some text)
  | None =>
      logging ERROR "Error al solicitar %s: %s" [ArgStr url; ArgExc];;;
      ret None
  end.

Definition url_catalogo (page : Z) : option string :=
  if page =? 1 then Some BASE_URL
  else urljoin BASE_URL ("catalogue/page-" +:+ pretty page +:+ ".html").

(** The loop over [clases] in [parsear_libros_catalogo]: the first class
    that is a key of [RATING_MAP] gives the rating and ends the loop. *)
Fixpoint rating_de_clases (clases : list string) : option Z :=
  match clases with
  | [] => None
  | c :: clases' =>
      match RATING_MAP !! c with
      | Some r => Some r
      | None => rating_de_clases clases'
      end
  end.

(** [urljoin(BASE_URL, v) if v else None] for the value [v] of an
    attribute; the outer [None] is the [ValueError] of [urljoin]. *)
Definition unir_si (v : option string) : option (option string) :=
  match no_vacio v with
  | Some u => Some <$> urljoin BASE_URL u
  | None => Some None
  end.

(** The body of the loop over the articles, up to the dictionary. The two
    addresses are joined before the dictionary is built, so a [ValueError]
    of [urljoin] leaves the body before [normalizar_precio] is called. *)
Definition libro_de_article (article : Tag) : M (option Libro) :=
  let link_tag := select_one h3_a article in
  let titulo :=
    match link_tag with
    | Some a => strip (default "" (get a "title"))
    | None => ""
    end in
  let precio_tag := select_one p_price_color article in
  let precio_texto := get_text_strip <$> precio_tag in
  let disp_tag := select_one p_instock_availability article in
  let disponibilidad_texto := get_text_strip <$> disp_tag in
  let rating_tag := select_one p_star_rating article in
  let rating :=
    match rating_tag with
    | Some p => rating_de_clases (get_class p)
    | None => None
    end in
  let img_tag := select_one div_image_container_img article in
  match (match img_tag with
         | Some img => unir_si (get img "src")
         | None => Some None
         end) with
  | None => ret None
  | Some img_url =>
      match (match link_tag with
             | Some a => unir_si (get a "href")
             | None => Some None
             end) with
      | None => ret None
      | Some detail_url =>
          hacer precio <- normalizar_precio precio_texto;
          ret (Some {| titulo := titulo; precio := precio;
                       disponibilidad := disponibilidad_texto;
                       rating := rating;
                       url_imagen := img_url; detail_url := detail_url;
                       descripcion := None; upc := None;
                       categoria := None |})
      end
  end.

(** The loop ends at the first article whose body raises, and the
    exception leaves [parsear_libros_catalogo]. *)
Definition parsear_libros_catalogo (html : string) : M (option (list Libro)) :=
  let soup := BeautifulSoup html in
  para_cada_o (select article_product_pod soup)
    (fun article libros =>
       hacer r <- libro_de_article article;
       match r with
       | Some libro => ret (Some (libros ++ [libro]))
       | None => ret None
       end)
    [].

(** The loop over the rows of the information table. *)
Fixpoint upc_de_filas (rows : list Tag) : option string :=
  match rows with
  | [] => None
  | row :: rows' =>
      match find "th" row, find "td" row with
      | Some th, Some td =>
          if String.eqb (get_text_strip th) "UPC"
          then Some (get_text_strip td)
          else upc_de_filas rows'
      | _, _ => upc_de_filas rows'
      end
  end.

Definition parsear_detalle (html : string) : Detalle :=
  let soup := BeautifulSoup html in
  let descripcion :=
    match find_id "product_description" soup with
    | Some (desc_header, siguientes) =>
        match find_next "p" siguientes with
        | Some p => Some (get_text_strip p)
        | None => None
        end
    | None => None
    end in
  let upc :=
    match select_one table_table_table_striped soup with
    | Some tabla => upc_de_filas (select tr tabla)
    | None => None
    end in
  let breadcrumb_links := select ul_breadcrumb_li_a soup in
  let categoria :=
    if (3 <=? length breadcrumb_links)%nat
    then get_text_strip <$> last breadcrumb_links
    else None in
  {| det_descripcion := descripcion; det_upc := upc;
     det_categoria := categoria |}.

Definition existe_libro (upc : option string) : M bool :=
  match no_vacio upc with
  | None => ret false
  | Some u =>
      modificar (con_sql (fun l => l ++ [SelectUpc u]));;;
      hacer filas <- leer vista;
      ret (bool_decide (Exists (fun f => fila_upc f = Some u) filas))
  end.

(** The row an INSERT of [libro] makes at external call [n] when the
    sequence stands at [seq]. *)
Definition fila_de (seq : Z) (n : nat) (libro : Libro) : Fila :=
  {| fila_id := seq + 1;
     fila_titulo := titulo libro;
     fila_precio := precio libro;
     fila_disponibilidad := disponibilidad libro;
     fila_rating := rating libro;
     fila_url_imagen := url_imagen libro;
     fila_descripcion := descripcion libro;
     fila_upc := upc libro;
     fila_categoria := categoria libro;
     fila_fecha := ahora n |}.

(** [conn.execute] of the INSERT, which opens a transaction when none is
    open and adds the row to it, then [conn.commit]. When the commit
    raises, the row stays in the open transaction. *)
Definition insertar_libro (libro : Libro) : M Resultado :=
  hacer n <- leer reloj;
  modificar (con_reloj (S n));;;
  modificar (con_sql (fun l => l ++ [InsertLibro]));;;
  if insert_falla n then ret DatabaseError
  else
    hacer seq <- leer secuencia_vista;
    modificar (con_pendientes (fun l => l ++ [fila_de seq n libro]));;;
    if commit_falla n then ret DatabaseError
    else
      modificar confirmar;;;
      ret Hecho.

Definition configurar_logger : M unit := ret tt.

(** [conn.close()]: what is pending is not committed. *)
Definition close : M unit := modificar sin_transaccion.

(** The body of [main], innermost block first. *)

(** Lines 283-300: the detail fields of a book and the count of details
    read, from the book's [detail_url]. *)
Definition main_detalle (libro : Libro) (total_detalles_ok : Z)
  : M (option string * option string * option string * Z) :=
  match no_vacio (detail_url libro) with
  | Some url =>
      hacer detalle_html <- obtener_html url;
      match no_vacio detalle_html with
      | Some html =>
          let detalle := parsear_detalle html in
          ret (det_descripcion detalle, det_upc detalle,
               det_categoria detalle, total_detalles_ok + 1)
      | None =>
          logging WARNING "No se pudo obtener detalle para '%s'"
            [ArgStr (titulo libro)];;;
          ret (None, None, None, total_detalles_ok)
      end
  | None =>
      logging WARNING "Libro sin URL de detalle: '%s'"
        [ArgStr (titulo libro)];;;
      ret (None, None, None, total_detalles_ok)
  end.

(** Lines 306-316: the duplicate control by UPC and the insertion. The
    result is the new [total_insertados]. *)
Definition main_commit (libro : Libro) (total_insertados : Z) : M Z :=
  hacer existe <-
    (if verdadero (upc libro) then existe_libro (upc libro) else ret false);
  if existe then
    logging INFO "Libro ya existente (UPC=%s), se omite: %s"
      [arg_de (upc libro); ArgStr (titulo libro)];;;
    ret total_insertados
  else
    hacer r <- insertar_libro libro;
    match r with
    | Hecho =>
        logging INFO "Insertado [%s] %s"
          [ArgInt (total_insertados + 1); ArgStr (titulo libro)];;;
        ret (total_insertados + 1)
    | DatabaseError =>
        logging ERROR "Error al insertar libro '%s': %s"
          [ArgStr (titulo libro); ArgExc];;;
        ret total_insertados
    end.

(** Lines 302-304: the three assignments to the dictionary. *)
Definition asignar_detalle (libro : Libro)
    (descripcion upc categoria : option string) : Libro :=
  {| titulo := titulo libro; precio := precio libro;
     disponibilidad := disponibilidad libro; rating := rating libro;
     url_imagen := url_imagen libro; detail_url := detail_url libro;
     descripcion := descripcion; upc := upc; categoria := categoria |}.

(** Lines 282-316: the body of the loop over the books of a page, on the
    local variables [(total_insertados, total_detalles_ok)]. *)
Definition main_libro (libro : Libro) (totales : Z * Z) : M (Z * Z) :=
  let '(total_insertados, total_detalles_ok) := totales in
  hacer '(descripcion, upc, categoria, total_detalles_ok) <-
    main_detalle libro total_detalles_ok;
  let libro := asignar_detalle libro descripcion upc categoria in
  hacer total_insertados <- main_commit libro total_insertados;
  ret (total_insertados, total_detalles_ok).

(** Lines 271-316: the body of the loop over the pages. [None] is the
    [ValueError] of [urljoin], in [url_catalogo] or in
    [parsear_libros_catalogo], which nothing catches. *)
Definition main_pagina (page : Z) (totales : Z * Z) : M (option (Z * Z)) :=
  match url_catalogo page with
  | None => ret None
  | Some catalog_url =>
      hacer html_catalogo <- obtener_html catalog_url;
      match no_vacio html_catalogo with
      | None =>
          logging WARNING "No se pudo obtener HTML para la página %s, se omite."
            [ArgInt page];;;
          ret (Some totales)
      | Some html =>
          hacer r <- parsear_libros_catalogo html;
          match r with
          | None => ret None
          | Some libros_catalogo =>
              logging INFO "Página %s: %s libros encontrados"
                [ArgInt page; ArgInt (Z.of_nat (length libros_catalogo))];;;
              hacer totales' <- para_cada libros_catalogo main_libro totales;
              ret (Some totales')
          end
      end
  end.

(** [main] returns, or a [ValueError] ends it before [conn.close()] and
    the last record. *)
Definition main : M (option unit) :=
  configurar_logger;;;
  logging INFO "Inicio del proceso de scraping" [];;;
  crear_conexion;;;
  hacer r <- para_cada_o [1; 2; 3] main_pagina (0, 0);
  match r with
  | None => ret None
  | Some (total_insertados, total_detalles_ok) =>
      close;;;
      logging INFO
        "Fin del proceso. Libros insertados: %s. Detalles procesados: %s"
        [ArgInt total_insertados; ArgInt total_detalles_ok];;;
      ret (Some tt)
  end.

End Scraper.

(** ** The export, [export_first_10.py] *)

(** A value SQLite hands back in a row. *)
Inductive Celda :=
| CNull
| CInt (z : Z)
| CReal (q : Q)
| CTexto (s : string).

Definition celda_texto (o : option string) : Celda :=
  match o with Some s => CTexto s | None => CNull end.
Definition celda_int (o : option Z) : Celda :=
  match o with Some z => CInt z | None => CNull end.
Definition celda_real (o : option Q) : Celda :=
  match o with Some q => CReal q | None => CNull end.

(** The columns of [libros] in the order of the CREATE TABLE statement of
    [crear_conexion]. *)
Definition columnas_tabla : list string :=
  ["id"; "titulo"; "precio"; "disponibilidad"; "rating"; "url_imagen";
   "descripcion"; "upc"; "categoria"; "fecha_extraccion"].

(** The value of a row in the column of that name. *)
Definition columna (nombre : string) (f : Fila) : Celda :=
  if String.eqb nombre "id" then CInt (fila_id f)
  else if String.eqb nombre "titulo" then CTexto (fila_titulo f)
  else if String.eqb nombre "precio" then celda_real (fila_precio f)
  else if String.eqb nombre "disponibilidad" then celda_texto (fila_disponibilidad f)
  else if String.eqb nombre "rating" then celda_int (fila_rating f)
  else if String.eqb nombre "url_imagen" then celda_texto (fila_url_imagen f)
  else if String.eqb nombre "descripcion" then celda_texto (fila_descripcion f)
  else if String.eqb nombre "upc" then celda_texto (fila_upc f)
  else if String.eqb nombre "categoria" then celda_texto (fila_categoria f)
  else if String.eqb nombre "fecha_extraccion" then CTexto (fila_fecha f)
  else CNull.

(** The select list of the query of [exportar_primeros_10]. *)
Definition columnas_select : list string :=
  ["id"; "titulo"; "precio"; "disponibilidad"; "rating"; "categoria"; "upc"].

(** [ORDER BY id LIMIT 10] over the table. *)
Definition por_id (f g : Fila) : Prop := fila_id f <= fila_id g.

#[global]
Instance por_id_dec : RelDecision por_id :=
  fun f g => decide (fila_id f <= fila_id g).

Definition primeros_10 (filas : list Fila) : list Fila :=
  take 10 (merge_sort por_id filas).

Definition comilla : ascii := ascii_of_nat 34.
Definition CR : ascii := ascii_of_nat 13.
Definition LF : ascii := ascii_of_nat 10.

(** [csv.writer] in its default dialect: a field is quoted when it holds
    the delimiter, the quote character or a character of the line
    terminator, and a quote character inside a field is written twice. *)
Definition pide_comillas (c : ascii) : bool :=
  Ascii.eqb c ","%char || Ascii.eqb c comilla || Ascii.eqb c CR || Ascii.eqb c LF.

Fixpoint alguno (p : ascii -> bool) (s : string) : bool :=
  match s with
  | EmptyString => false
  | String c s' => p c || alguno p s'
  end.

Fixpoint doblar_comillas (s : string) : string :=
  match s with
  | EmptyString => EmptyString
  | String c s' =>
      if Ascii.eqb c comilla
      then String comilla (String comilla (doblar_comillas s'))
      else String c (doblar_comillas s')
  end.

Definition csv_campo (texto : string) : string :=
  if alguno pide_comillas texto
  then String comilla (doblar_comillas texto +:+ String comilla EmptyString)
  else texto.

Fixpoint unir (sep : string) (l : list string) : string :=
  match l with
  | [] => EmptyString
  | [x] => x
  | x :: l' => x +:+ sep +:+ unir sep l'
  end.

Section Exportador.

(** [str] of a float and [repr] of a row tuple, as Python prints them. *)
Variable str_float : Q -> string.
Variable repr_tuple : list Celda -> string.

(** The text [csv.writer] makes of a field before quoting. *)
Definition str_celda (c : Celda) : string :=
  match c with
  | CNull => EmptyString
  | CInt z => pretty z
  | CReal q => str_float q
  | CTexto s => s
  end.

(** [writer.writerow]: the fields joined by the delimiter, then the line
    terminator; a row of one empty field is written as two quote
    characters. *)
Definition writerow (row : list Celda) : string :=
  let rec := unir "," (map (fun c => csv_campo (str_celda c)) row) in
  (match row with
   | [_] => if String.eqb rec "" then String comilla (String comilla EmptyString)
            else rec
   | _ => rec
   end) +:+ String CR (String LF EmptyString).

Definition print (s : string) : M unit :=
  modificar (con_consola (fun l => l ++ [s])).

Definition exportar_primeros_10 (output_csv : string) : M unit :=
  modificar (con_sql (fun l => l ++ [SelectPrimeros10]));;;
  hacer filas <- leer libros;
  let rows :=
    map (fun f => map (fun c => columna c f) columnas_select)
      (primeros_10 filas) in
  let headers := columnas_select in
  print "Primeros 10 registros:";;;
  para_cada rows (fun row _ => print (repr_tuple row)) tt;;;
  modificar (con_archivos
    (insert output_csv
       (writerow (map CTexto headers)
          +:+ foldr String.append EmptyString (map writerow rows))));;;
  print (String LF "Exportado a " +:+ output_csv).

End Exportador.

(** * Vocabulary of the properties *)

(** ** Counting characters *)

(** The number of characters of [s] that satisfy [p]. *)
Fixpoint cuenta (p : ascii -> bool) (s : string) : nat :=
  match s with
  | EmptyString => 0%nat
  | String c s' => ((if p c then 1 else 0) + cuenta p s')%nat
  end.

(** The points [float_scan] has read when it stands at [frac]. *)
Definition puntos_vistos (frac : option nat) : nat :=
  match frac with Some _ => 1%nat | None => 0%nat end.

(** ** Log records and worlds after a call *)

Definition entrada (n : Nivel) (fmt : string) (a : list Arg) : Entrada :=
  {| nivel := n; formato := fmt; args := a |}.

(** The world with one more log record. *)
Definition anotar (e : Entrada) : Mundo -> Mundo :=
  con_registro (fun r => r ++ [e]).

(** The warnings of the source. *)
Definition aviso_precio (p : string) : Entrada :=
  entrada WARNING "No se pudo convertir el precio: %s" [ArgStr p].

Definition aviso_sin_url (libro : Libro) : Entrada :=
  entrada WARNING "Libro sin URL de detalle: '%s'" [ArgStr (titulo libro)].

Definition aviso_sin_detalle (libro : Libro) : Entrada :=
  entrada WARNING "No se pudo obtener detalle para '%s'"
    [ArgStr (titulo libro)].

Definition aviso_pagina (page : Z) : Entrada :=
  entrada WARNING "No se pudo obtener HTML para la página %s, se omite."
    [ArgInt page].

(** The world after a GET that raised. *)
Definition tras_get_fallido (url : string) (w : Mundo) : Mundo :=
  anotar (entrada ERROR "Error al solicitar %s: %s" [ArgStr url; ArgExc])
    (con_reloj (S (reloj w)) (anotar (entrada INFO "GET %s" [ArgStr url]) w)).

(** The world after a GET that returned a body. *)
Definition tras_get (url : string) (w : Mundo) : Mundo :=
  con_pausas (S (pausas w))
    (con_reloj (S (reloj w)) (anotar (entrada INFO "GET %s" [ArgStr url]) w)).

(** The world after an INSERT that the store refused. *)
Definition tras_insert_fallido (w : Mundo) : Mundo :=
  con_sql (fun l => l ++ [InsertLibro]) (con_reloj (S (reloj w)) w).

(** The row an INSERT of [libro] issued in [w] makes. *)
Definition fila_nueva (ahora : nat -> string) (libro : Libro) (w : Mundo)
  : Fila :=
  fila_de ahora (secuencia_vista w) (reloj w) libro.

(** The world after an INSERT that the store accepted and a commit that
    raised: the row is pending. *)
Definition tras_insert_pendiente (ahora : nat -> string) (libro : Libro)
    (w : Mundo) : Mundo :=
  con_pendientes (fun l => l ++ [fila_nueva ahora libro w])
    (tras_insert_fallido w).

(** The world after an INSERT that the store accepted and committed. *)
Definition tras_insert (ahora : nat -> string) (libro : Libro) (w : Mundo)
  : Mundo :=
  confirmar (tras_insert_pendiente ahora libro w).

(** The table the connection sees after an attempt to insert [libro] in
    [w]. *)
Definition vista_tras_insert (insert_falla : nat -> bool)
    (ahora : nat -> string) (libro : Libro) (w : Mundo) : list Fila :=
  if insert_falla (reloj w) then vista w
  else vista w ++ [fila_nueva ahora libro w].

(** The table of the file after an attempt to insert [libro] in [w]: a
    commit stores the new row and, before it, the rows that were
    pending. *)
Definition libros_tras_insert (insert_falla commit_falla : nat -> bool)
    (ahora : nat -> string) (libro : Libro) (w : Mundo) : list Fila :=
  if insert_falla (reloj w) || commit_falla (reloj w) then libros w
  else vista w ++ [fila_nueva ahora libro w].

(** The new [total_insertados] and the world after [main] tries to insert
    [libro] in [w] with the counter at [ti]: the INSERT raised; or it was
    accepted and the commit raised, so the row is pending; or both were
    accepted, and the row and what was pending are in the file. *)
Definition tras_intento (insert_falla commit_falla : nat -> bool)
    (ahora : nat -> string) (libro : Libro) (ti : Z) (w : Mundo) : Z * Mundo :=
  if insert_falla (reloj w) then
    (ti,
     anotar (entrada ERROR "Error al insertar libro '%s': %s"
               [ArgStr (titulo libro); ArgExc])
       (tras_insert_fallido w))
  else if commit_falla (reloj w) then
    (ti,
     anotar (entrada ERROR "Error al insertar libro '%s': %s"
               [ArgStr (titulo libro); ArgExc])
       (tras_insert_pendiente ahora libro w))
  else
    (ti + 1,
     anotar (entrada INFO "Insertado [%s] %s"
               [ArgInt (ti + 1); ArgStr (titulo libro)])
       (tras_insert ahora libro w)).

(** ** Ratings, UPCs and rows *)

(** The five labels and their ratings. *)
Definition etiquetas : list (string * Z) :=
  [("One", 1); ("Two", 2); ("Three", 3); ("Four", 4); ("Five", 5)].





(** The line terminator of [csv.writer]. *)
Definition CRLF : string := String CR (String LF EmptyString).

(** * Example data *)

(** A world with an empty table, nothing logged and nothing printed. *)
Definition mundo_vacio : Mundo :=
  {| libros := []; secuencia := 0; pendientes := []; reloj := 0; sql := [];
     registro := []; pausas := 0; consola := []; archivos := ∅ |}.

(** A listing page of two units: the first has no image node, the second
    has a rating node without a rating class. *)
Definition unidad_sin_imagen : nodo :=
  Etiqueta "article" ∅ ["product_pod"]
    [ Etiqueta "p" ∅ ["star-rating"; "Three"] [];
      Etiqueta "h3" ∅ []
        [ Etiqueta "a" {[ "title" := "A Light in the Attic"; "href" := "a.html" ]}
            [] [Texto "A Light in the ..."] ];
      Etiqueta "div" ∅ ["product_price"]
        [ Etiqueta "p" ∅ ["price_color"] [Texto "£51.77"];
          Etiqueta "p" ∅ ["instock"; "availability"] [Texto "  In stock  "] ] ].

Definition unidad_sin_rating : nodo :=
  Etiqueta "article" ∅ ["product_pod"]
    [ Etiqueta "div" ∅ ["image_container"]
        [ Etiqueta "a" {[ "href" := "b.html" ]} []
            [ Etiqueta "img" {[ "src" := "b.jpg" ]} ["thumbnail"] [] ] ];
      Etiqueta "p" ∅ ["star-rating"] [];
      Etiqueta "h3" ∅ []
        [ Etiqueta "a" {[ "title" := "Tipping the Velvet"; "href" := "b.html" ]}
            [] [] ];
      Etiqueta "p" ∅ ["price_color"] [Texto "£53.74"] ].

Definition cuerpo_dos_unidades : nodo :=
  Etiqueta "body" ∅ [] [ unidad_sin_imagen; Texto " "; unidad_sin_rating ].

Definition pagina_dos_unidades : list nodo :=
  [ Etiqueta "html" ∅ [] [ cuerpo_dos_unidades ] ].

(** The first unit as a tag of the page, below [body], [html] and the
    root. *)
Definition primera_unidad : Tag :=
  {| padres := [ cuerpo_dos_unidades;
                 Etiqueta "html" ∅ [] [ cuerpo_dos_unidades ];
                 este (documento pagina_dos_unidades) ];
     este := unidad_sin_imagen |}.

(** A stand-in for [urljoin] that appends the address to the base, and
    raises for the address [//[], an unclosed bracketed host, as [urljoin]
    does. *)
Definition unir_url (base u : string) : option string :=
  if String.eqb u "//[" then None else Some (base +:+ u).

(** A listing page of two units, the second with a link whose address
    [urljoin] rejects. *)
Definition unidad_enlace_roto : nodo :=
  Etiqueta "article" ∅ ["product_pod"]
    [ Etiqueta "h3" ∅ []
        [ Etiqueta "a" {[ "title" := "Tipping the Velvet"; "href" := "//[" ]}
            [] [] ];
      Etiqueta "p" ∅ ["price_color"] [Texto "£53.74"] ].

Definition pagina_enlace_roto : list nodo :=
  [ Etiqueta "html" ∅ []
      [ Etiqueta "body" ∅ [] [ unidad_sin_imagen; unidad_enlace_roto ] ] ].

(** A detail page with the trail Home / Books / Poetry, a description and
    an information table; [upc_texto] is the content of the UPC cell. *)
Definition enlace (texto : string) : nodo :=
  Etiqueta "li" ∅ [] [ Etiqueta "a" {[ "href" := "index.html" ]} [] [Texto texto] ].

Definition pagina_detalle (upc_texto : list nodo) : list nodo :=
  [ Etiqueta "html" ∅ []
      [ Etiqueta "body" ∅ []
          [ Etiqueta "ul" ∅ ["breadcrumb"]
              [ enlace "Home"; enlace "Books"; enlace " Poetry ";
                Etiqueta "li" ∅ ["active"] [Texto "A Light in the Attic"] ];
            Etiqueta "div" {[ "id" := "product_description" ]} ["sub-header"]
              [ Etiqueta "h2" ∅ [] [Texto "Product Description"] ];
            Etiqueta "p" ∅ [] [Texto "It's hard to imagine a world without it."];
            Etiqueta "table" ∅ ["table"; "table-striped"]
              [ Etiqueta "tr" ∅ []
                  [ Etiqueta "th" ∅ [] [Texto "UPC"];
                    Etiqueta "td" ∅ [] upc_texto ];
                Etiqueta "tr" ∅ []
                  [ Etiqueta "th" ∅ [] [Texto "Product Type"];
                    Etiqueta "td" ∅ [] [Texto "Books"] ] ] ] ] ].

(** A network that answers every GET with a page, one that answers with an
    empty body and one that is down; a store that accepts every INSERT and
    every commit, and one that is locked at every commit; a clock that
    stands still. *)
Definition red_con_pagina : nat -> string -> option string :=
  fun _ _ => Some "<html>".
Definition red_cuerpo_vacio : nat -> string -> option string :=
  fun _ _ => Some "".
Definition red_caida : nat -> string -> option string := fun _ _ => None.
Definition almacen_fiable : nat -> bool := fun _ => false.
Definition almacen_bloqueado : nat -> bool := fun _ => true.
(** A store that is locked at external call 2 alone. *)
Definition almacen_rezagado : nat -> bool := fun n => Nat.eqb n 2.
Definition reloj_fijo : nat -> string := fun _ => "2025-01-01 00:00:00".

(** A book as the listing page gives it. *)
Definition libro_listado : Libro :=
  {| titulo := "A Light in the Attic"; precio := Some (Qmake 5177 100);
     disponibilidad := Some "In stock"; rating := Some 3;
     url_imagen := None;
     detail_url := Some "https://books.toscrape.com/a.html";
     descripcion := None; upc := None; categoria := None |}.

(** The same book with the detail fields of its page and the UPC [u]. *)
Definition libro_con_upc (u : string) : Libro :=
  asignar_detalle libro_listado None (Some u) (Some "Poetry").

(** A table that already holds the book with its UPC. *)
Definition mundo_con_libro : Mundo :=
  snd (main_commit almacen_fiable almacen_fiable reloj_fijo
         (libro_con_upc "a897fe39b1053632") 0 mundo_vacio).


(** A stand-in for [str] on floats; the table it is used with is empty, so
    no float is ever printed. *)
Definition sin_floats (q : Q) : string := EmptyString.

(** * Vocabulary of the further properties *)

(** ** Warnings of the listing extractor *)

(** The text of the price node of a unit. *)
Definition texto_precio (article : Tag) : option string :=
  get_text_strip <$> select_one p_price_color article.

(** The warnings a price text brings: one when the text has a digit or a
    point left and [float] rejects it, none otherwise. *)
Definition avisos_de_precio (o : option string) : list Entrada :=
  match no_vacio o with
  | Some p =>
      if String.eqb (re_sub_no_numerico p) "" then []
      else match py_float (re_sub_no_numerico p) with
           | Some _ => []
           | None => [aviso_precio p]
           end
  | None => []
  end.

(** ** The record of a unit, and the units the loop gets through *)

(** The address attributes of a unit that [urljoin] is called on: the
    [src] of its image and the [href] of its link, when they are there and
    not empty. *)
Definition src_de (article : Tag) : option string :=
  select_one div_image_container_img article
    ≫= fun img => no_vacio (get img "src").

Definition href_de (article : Tag) : option string :=
  select_one h3_a article ≫= fun a => no_vacio (get a "href").

(** [urljoin] accepts the addresses of a unit. *)
Definition unible (urljoin : string -> string -> option string)
    (o : option string) : bool :=
  match o with
  | Some v => bool_decide (is_Some (urljoin BASE_URL v))
  | None => true
  end.

Definition direcciones_unibles (urljoin : string -> string -> option string)
    (article : Tag) : bool :=
  unible urljoin (src_de article) && unible urljoin (href_de article).

(** The dictionary of a unit, each field from its own sub-element. *)
Definition dict_de (urljoin : string -> string -> option string)
    (article : Tag) : Libro :=
  {| titulo :=
       match select_one h3_a article with
       | Some a => strip (default "" (get a "title"))
       | None => ""
       end;
     precio := texto_precio article ≫= (fun t => py_float (re_sub_no_numerico t));
     disponibilidad :=
       get_text_strip <$> select_one p_instock_availability article;
     rating :=
       select_one p_star_rating article
         ≫= (fun p => rating_de_clases (get_class p));
     url_imagen := src_de article ≫= urljoin BASE_URL;
     detail_url := href_de article ≫= urljoin BASE_URL;
     descripcion := None; upc := None; categoria := None |}.

(** The units before the first one with an address [urljoin] rejects. *)
Fixpoint antes_del_fallo (urljoin : string -> string -> option string)
    (units : list Tag) : list Tag :=
  match units with
  | [] => []
  | a :: units' =>
      if direcciones_unibles urljoin a
      then a :: antes_del_fallo urljoin units'
      else []
  end.

(** ** Progress of a run *)

(** The row [f] has a smaller id than the row [g]. *)
Definition antes (f g : Fila) : Prop := fila_id f < fila_id g.

(** The ids grow strictly along the table and none is above the
    sequence of AUTOINCREMENT. *)
Definition ids_en_orden (w : Mundo) : Prop :=
  StronglySorted antes (libros w)
  /\ Forall (fun f => fila_id f <= secuencia w) (libros w).

(** The same for the table as the connection sees it: the ids grow
    strictly along the rows of the file and the pending rows after them,
    and none is above the sequence it belongs to. *)
Definition ids_en_curso (w : Mundo) : Prop :=
  StronglySorted antes (vista w)
  /\ Forall (fun f => fila_id f <= secuencia w) (libros w)
  /\ Forall (fun f => fila_id f <= secuencia_vista w) (pendientes w).

(** What a part of a run on one connection, which starts in [w0] with the
    counters [s0] and ends in [w] with the counters [s], keeps: the rows of
    [w0] are the first rows of [w], in the file and as the connection sees
    the table; [total_insertados] did not shrink and grew by no more than
    the number of rows the file got; [total_detalles_ok] did not shrink and
    grew by no more than the number of pauses; the order of the ids is
    kept; and as long as no commit raises nothing is pending and
    [total_insertados] grew by the number of rows the file got. *)
Definition progreso (commit_falla : nat -> bool)
    (s0 : Z * Z) (w0 : Mundo) (s : Z * Z) (w : Mundo) : Prop :=
  libros w0 `prefix_of` libros w
  /\ vista w0 `prefix_of` vista w
  /\ 0 <= fst s - fst s0
       <= Z.of_nat (length (libros w)) - Z.of_nat (length (libros w0))
  /\ snd s0 <= snd s
  /\ snd s - snd s0 <= Z.of_nat (pausas w) - Z.of_nat (pausas w0)
  /\ (ids_en_curso w0 -> ids_en_curso w)
  /\ ((forall n, commit_falla n = false) -> pendientes w0 = [] ->
      pendientes w = []
      /\ Z.of_nat (length (libros w)) - fst s
         = Z.of_nat (length (libros w0)) - fst s0).

(** The world in which the loop of [main] over the pages starts: the start
    is logged, the connection is new and the table is there. *)
Definition mundo_inicial (w : Mundo) : Mundo :=
  con_sql (fun l => l ++ [CreateTableIfNotExists])
    (sin_transaccion
       (anotar (entrada INFO "Inicio del proceso de scraping" []) w)).

(** The last record of a run of [main] that returns. *)
Definition resumen (ti td : Z) : Entrada :=
  entrada INFO
    "Fin del proceso. Libros insertados: %s. Detalles procesados: %s"
    [ArgInt ti; ArgInt td].

(** ** The UPC row and the characters of a number *)

(** A row of the information table in which the loop of [parsear_detalle]
    stops: it has a [th] and a [td], and the text of the [th] is UPC. *)
Definition es_fila_upc (row : Tag) : bool :=
  match find "th" row, find "td" row with
  | Some th, Some _ => String.eqb (get_text_strip th) "UPC"
  | _, _ => false
  end.

(** A character [re.sub] keeps: a digit or the point. *)
Definition es_numerico (c : ascii) : bool := es_digito c || es_punto c.

(** ** The rows and the text of the export *)

(** The rows the export reads from a table: the seven selected columns of
    its first ten rows by id. *)
Definition filas_csv (filas : list Fila) : list (list Celda) :=
  map (fun f => map (fun c => columna c f) columnas_select) (primeros_10 filas).

(** The text the export writes for a table. *)
Definition texto_csv (str_float : Q -> string) (filas : list Fila) : string :=
  writerow str_float (map CTexto columnas_select)
    +:+ foldr String.append EmptyString
          (map (writerow str_float) (filas_csv filas)).

(** ** A site that does not change *)

(** The same address gets the same answer at every call. *)
Definition sitio_estable (http_get : nat -> string -> option string) : Prop :=
  forall n url, http_get n url = http_get 0%nat url.

(** The UPC the loop body finds for a book: the one of its detail page,
    when the book has a detail address, the page comes back with a body and
    its UPC is not empty. *)
Definition upc_en_sitio (lxml : string -> list nodo)
    (http_get : nat -> string -> option string) (libro : Libro)
  : option string :=
  match no_vacio (detail_url libro) with
  | Some url =>
      match no_vacio (http_get 0%nat url) with
      | Some html => no_vacio (det_upc (parsear_detalle lxml html))
      | None => None
      end
  | None => None
  end.

(** The books of a listing page of the site: none when the page does not
    come back with a body, and [None] when [urljoin] rejects the address of
    the page or an address in it. *)
Definition libros_en_sitio (lxml : string -> list nodo)
    (urljoin : string -> string -> option string)
    (http_get : nat -> string -> option string) (page : Z)
  : option (list Libro) :=
  url_catalogo urljoin page ≫= fun url =>
    match no_vacio (http_get 0%nat url) with
    | Some html => fst (parsear_libros_catalogo lxml urljoin html mundo_vacio)
    | None => Some []
    end.

(** Some row of the table of the file has the UPC [u]. *)
Definition en_tabla (u : string) (w : Mundo) : Prop :=
  Exists (fun f => fila_upc f = Some u) (libros w).

(** The connection sees a row with the UPC [u]. *)
Definition a_la_vista (u : string) (w : Mundo) : Prop :=
  Exists (fun f => fila_upc f = Some u) (vista w).

(** ** A small site *)

(** A site of one listing page, the page of the two units, and the two
    detail pages its links lead to; every other address fails. [sitio_lxml]
    is the tree of each body and [sitio_http] the answer to each GET. *)
Definition sitio_lxml (html : string) : list nodo :=
  if String.eqb html "listado" then pagina_dos_unidades
  else if String.eqb html "detalle-a"
       then pagina_detalle [Texto "a897fe39b1053632"]
  else if String.eqb html "detalle-b"
       then pagina_detalle [Texto "90fa61229261140a"]
  else [].

Definition sitio_http (n : nat) (url : string) : option string :=
  if String.eqb url BASE_URL then Some "listado"
  else if String.eqb url "https://books.toscrape.com/a.html"
       then Some "detalle-a"
  else if String.eqb url "https://books.toscrape.com/b.html"
       then Some "detalle-b"
  else None.

(** The world after a crawl of the small site from the empty table. *)
Definition mundo_tras_sitio : Mundo :=
  snd (main sitio_lxml unir_url sitio_http almacen_fiable almacen_fiable
         reloj_fijo mundo_vacio).

(** The world after the same crawl with a store that is locked at the
    commit of the first INSERT, which is external call 2. *)
Definition mundo_tras_sitio_rezagado : Mundo :=
  snd (main sitio_lxml unir_url sitio_http almacen_fiable almacen_rezagado
         reloj_fijo mundo_vacio).

(** The world after the same crawl with a store that is locked at every
    commit. *)
Definition mundo_tras_sitio_bloqueado : Mundo :=
  snd (main sitio_lxml unir_url sitio_http almacen_fiable almacen_bloqueado
         reloj_fijo mundo_vacio).

(** * Properties *)

(** ** The price normaliser *)

Lemma digito_no_punto c : es_digito c = true -> es_punto c = false.
Proof.
  unfold es_digito, es_punto. intros H.
  destruct (Ascii.eqb_spec c "."%char) as [->|]; [|reflexivity].
  vm_compute in H. discriminate.
Qed.

Lemma valor_digito_no_negativo c : es_digito c = true -> 0 <= valor_digito c.
Proof.
  unfold es_digito, valor_digito. intros H.
  apply andb_prop in H as [H _]. apply Nat.leb_le in H. lia.
Qed.

Lemma re_sub_filter p :
  list_ascii_of_string (re_sub_no_numerico p)
  = filter (fun c => es_digito c || es_punto c = true) (list_ascii_of_string p).
Proof.
  induction p as [|c p IH]; simpl; [reflexivity|].
  destruct (es_digito c || es_punto c) eqn:E; simpl.
  - rewrite filter_cons_True by exact E. now rewrite IH.
  - rewrite filter_cons_False by (rewrite E; discriminate). exact IH.
Qed.

Lemma cuenta_digitos_re_sub p :
  cuenta es_digito (re_sub_no_numerico p) = cuenta es_digito p.
Proof.
  induction p as [|c p IH]; simpl; [reflexivity|].
  destruct (es_digito c) eqn:D; simpl; [rewrite D; now rewrite IH|].
  destruct (es_punto c); simpl; [rewrite D|]; exact IH.
Qed.

Lemma cuenta_puntos_re_sub p :
  cuenta es_punto (re_sub_no_numerico p) = cuenta es_punto p.
Proof.
  induction p as [|c p IH]; simpl; [reflexivity|].
  destruct (es_digito c) eqn:D; simpl.
  - rewrite (digito_no_punto c D). simpl. exact IH.
  - destruct (es_punto c) eqn:P; simpl; [rewrite P; now rewrite IH|exact IH].
Qed.

Lemma re_sub_solo_numerico p :
  cuenta (fun c => negb (es_digito c || es_punto c)) (re_sub_no_numerico p) = 0%nat.
Proof.
  induction p as [|c p IH]; simpl; [reflexivity|].
  destruct (es_digito c || es_punto c) eqn:E; simpl; [rewrite E|]; exact IH.
Qed.

Lemma alguno_cuenta p s : alguno p s = true <-> (1 <= cuenta p s)%nat.
Proof.
  induction s as [|c s IH]; simpl; [split; [discriminate|lia]|].
  destruct (p c); simpl; [split; [lia|reflexivity]|exact IH].
Qed.

(** The count of digits of a successful scan. *)
Lemma float_scan_digitos s : forall mant ndig frac m n f,
  float_scan mant ndig frac s = Some (m, n, f) ->
  n = (ndig + cuenta es_digito s)%nat.
Proof.
  induction s as [|c s IH]; simpl; intros mant ndig frac m n f H.
  - injection H as _ <- _. lia.
  - destruct (es_digito c) eqn:D.
    + apply IH in H. lia.
    + destruct (es_punto c); [|discriminate].
      destruct frac; [discriminate|]. apply IH in H. lia.
Qed.

(** A string of digits with at most one point is scanned to the end, and
    the number read is not negative. *)
Lemma float_scan_exito s : forall mant ndig frac,
  cuenta (fun c => negb (es_digito c || es_punto c)) s = 0%nat ->
  (cuenta es_punto s + puntos_vistos frac <= 1)%nat ->
  0 <= mant ->
  exists m f, float_scan mant ndig frac s
              = Some (m, (ndig + cuenta es_digito s)%nat, f) /\ 0 <= m.
Proof.
  induction s as [|c s IH]; simpl; intros mant ndig frac Hok Hp Hm.
  - exists mant, frac. split; [do 3 f_equal; lia|exact Hm].
  - destruct (es_digito c) eqn:D; simpl in *.
    + rewrite (digito_no_punto c D) in Hp. simpl in Hp.
      pose proof (valor_digito_no_negativo c D) as Hv.
      destruct (IH (10 * mant + valor_digito c) (S ndig) (S <$> frac))
        as (m & f & E & Hm'); [exact Hok| |lia|].
      { destruct frac; simpl in *; lia. }
      exists m, f. split; [|exact Hm'].
      rewrite E. do 3 f_equal. lia.
    + destruct (es_punto c) eqn:P; simpl in *; [|discriminate].
      destruct frac as [k|]; simpl in Hp; [lia|].
      destruct (IH mant ndig (Some 0%nat)) as (m & f & E & Hm');
        [exact Hok|simpl; lia|exact Hm|].
      exists m, f. split; [|exact Hm']. rewrite E. do 3 f_equal.
Qed.

(** A second point stops the scan. *)
Lemma float_scan_dos_puntos s : forall mant ndig frac,
  (2 <= cuenta es_punto s + puntos_vistos frac)%nat ->
  float_scan mant ndig frac s = None.
Proof.
  induction s as [|c s IH]; simpl; intros mant ndig frac Hp.
  - destruct frac; simpl in Hp; lia.
  - destruct (es_digito c) eqn:D.
    + rewrite (digito_no_punto c D) in Hp. apply IH.
      destruct frac; simpl in *; lia.
    + destruct (es_punto c) eqn:P; [|reflexivity].
      destruct frac; [reflexivity|]. apply IH. simpl in *. lia.
Qed.

Lemma py_float_sin_digitos s : cuenta es_digito s = 0%nat -> py_float s = None.
Proof.
  intros H. unfold py_float.
  destruct (float_scan 0 0 None s) as [[[m n] f]|] eqn:E; [|reflexivity].
  apply float_scan_digitos in E. rewrite H in E. simpl in E. now subst n.
Qed.

Lemma py_float_exito s :
  cuenta (fun c => negb (es_digito c || es_punto c)) s = 0%nat ->
  (1 <= cuenta es_digito s)%nat -> (cuenta es_punto s <= 1)%nat ->
  exists q, py_float s = Some q /\ (0 <= q)%Q.
Proof.
  intros Hok Hd Hp. unfold py_float.
  destruct (float_scan_exito s 0 0%nat None Hok) as (m & f & E & Hm);
    [simpl; lia|lia|].
  rewrite E. simpl. destruct (cuenta es_digito s) eqn:C; [lia|].
  eexists. split; [reflexivity|].
  unfold Qle. simpl. lia.
Qed.

Lemma py_float_dos_puntos s : (2 <= cuenta es_punto s)%nat -> py_float s = None.
Proof.
  intros H. unfold py_float.
  rewrite float_scan_dos_puntos; [reflexivity|simpl; lia].
Qed.

(** The value [normalizar_precio] returns, whatever it logs. *)
Lemma no_vacio_Some o u : no_vacio o = Some u <-> o = Some u /\ u <> "".
Proof.
  unfold no_vacio.
  destruct o as [s|]; [|split; [discriminate|intros [? _]; discriminate]].
  destruct (String.eqb_spec s "") as [->|Hne]; split.
  - discriminate.
  - intros [[= <-] H]. now contradict H.
  - intros [= <-]. split; [reflexivity|exact Hne].
  - intros [[= <-] _]. reflexivity.
Qed.

Lemma no_vacio_None s : no_vacio (Some s) = None <-> s = "".
Proof.
  unfold no_vacio. destruct (String.eqb_spec s "") as [->|Hne]; split;
    try reflexivity; try discriminate. intros ->. now contradict Hne.
Qed.

(** The value [normalizar_precio] returns, whatever it logs. *)
Lemma normalizar_precio_valor (o : option string) (w : Mundo) :
  fst (normalizar_precio o w) = o ≫= (fun p => py_float (re_sub_no_numerico p)).
Proof.
  unfold normalizar_precio. destruct o as [p|]; [|reflexivity].
  cbn [mbind option_bind]. destruct (no_vacio (Some p)) as [q|] eqn:V.
  - apply no_vacio_Some in V as [[= <-] _].
    destruct (String.eqb_spec (re_sub_no_numerico p) "") as [E|E].
    + rewrite E. reflexivity.
    + destruct (py_float (re_sub_no_numerico p)); reflexivity.
  - apply no_vacio_None in V. subst p. reflexivity.
Qed.

(** C8. [normalizar_precio] returns on every input, and never raises: an
    absent or empty input gives [None]; the characters that are neither a
    digit nor a point are removed; [None] comes back when nothing is left,
    and also, after one warning is logged, when [float] rejects what is
    left; otherwise the number read comes back and nothing is logged. In
    particular "£51.77" gives 51.77, and the empty string and "Free" give
    [None]. *)
Theorem normalizar_precio_never_raises :
  (forall w, normalizar_precio None w = (None, w))
  /\ (forall w, normalizar_precio (Some "") w = (None, w))
  /\ (forall p,
        list_ascii_of_string (re_sub_no_numerico p)
        = filter (fun c => es_digito c || es_punto c = true)
            (list_ascii_of_string p))
  /\ (forall p w,
        re_sub_no_numerico p = "" -> normalizar_precio (Some p) w = (None, w))
  /\ (forall p w,
        re_sub_no_numerico p <> "" ->
        py_float (re_sub_no_numerico p) = None ->
        normalizar_precio (Some p) w
        = (None, con_registro (fun r => r ++ [aviso_precio p]) w))
  /\ (forall p w x,
        py_float (re_sub_no_numerico p) = Some x ->
        normalizar_precio (Some p) w = (Some x, w))
  /\ (forall w, normalizar_precio (Some "£51.77") w = (Some (Qmake 5177 100), w))
  /\ (forall w, normalizar_precio (Some "Free") w = (None, w)).
Proof.
  repeat split; try reflexivity.
  - apply re_sub_filter.
  - intros p w H. unfold normalizar_precio.
    destruct (no_vacio (Some p)) as [q|] eqn:V; [|reflexivity].
    apply no_vacio_Some in V as [[= <-] _]. rewrite H. reflexivity.
  - intros p w Hne Hf. unfold normalizar_precio.
    destruct (no_vacio (Some p)) as [q|] eqn:V.
    + apply no_vacio_Some in V as [[= <-] _].
      destruct (String.eqb_spec (re_sub_no_numerico p) "") as [E|E];
        [contradiction|].
      rewrite Hf. reflexivity.
    + apply no_vacio_None in V. subst p. now contradict Hne.
  - intros p w x Hf. unfold normalizar_precio.
    destruct (no_vacio (Some p)) as [q|] eqn:V.
    + apply no_vacio_Some in V as [[= <-] _].
      destruct (String.eqb_spec (re_sub_no_numerico p) "") as [E|E].
      * rewrite E in Hf. discriminate.
      * rewrite Hf. reflexivity.
    + apply no_vacio_None in V. subst p. discriminate.
Qed.

(** The parse of "1.2.3" fails: [None] comes back and the warning is in
    the log. *)
Lemma normalizar_precio_never_raises_witness :
  normalizar_precio (Some "v1.2.3") mundo_vacio
  = (None, con_registro (fun r => r ++ [aviso_precio "v1.2.3"]) mundo_vacio).
Proof.
  apply (proj1 (proj2 (proj2 (proj2 (proj2 normalizar_precio_never_raises))))).
  - discriminate.
  - reflexivity.
Defined.

(** C2, as the code has it. A raw price with at least one digit and at most
    one point gives a number that is not negative; with at least one digit
    and two or more points it gives [None]; with no digit it gives
    [None]. *)
Theorem normalizar_precio_digits (s : string) (w : Mundo) :
  (alguno es_digito s = true -> (cuenta es_punto s <= 1)%nat ->
     exists q, fst (normalizar_precio (Some s) w) = Some q /\ (0 <= q)%Q)
  /\ (alguno es_digito s = true -> (2 <= cuenta es_punto s)%nat ->
        fst (normalizar_precio (Some s) w) = None)
  /\ (alguno es_digito s = false ->
        fst (normalizar_precio (Some s) w) = None).
Proof.
  rewrite normalizar_precio_valor. cbn [mbind option_bind].
  repeat split.
  - intros Hd Hp. apply py_float_exito.
    + apply re_sub_solo_numerico.
    + rewrite cuenta_digitos_re_sub. now apply alguno_cuenta.
    + now rewrite cuenta_puntos_re_sub.
  - intros _ Hp. apply py_float_dos_puntos. now rewrite cuenta_puntos_re_sub.
  - intros Hd. apply py_float_sin_digitos. rewrite cuenta_digitos_re_sub.
    destruct (cuenta es_digito s) eqn:C; [reflexivity|].
    assert (alguno es_digito s = true) as E by (apply alguno_cuenta; lia).
    congruence.
Qed.

Lemma normalizar_precio_digits_witness :
  exists q, fst (normalizar_precio (Some "£51.77") mundo_vacio) = Some q
            /\ (0 <= q)%Q.
Proof.
  apply (proj1 (normalizar_precio_digits "£51.77" mundo_vacio)).
  - reflexivity.
  - simpl. lia.
Defined.

(** C2 as stated fails: "1.2.3" holds a digit and [normalizar_precio]
    returns [None] for it. *)
Lemma normalizar_precio_digits_counterexample :
  alguno es_digito "1.2.3" = true
  /\ fst (normalizar_precio (Some "1.2.3") mundo_vacio) = None.
Proof. split; reflexivity. Qed.

(** ** The listing extractor *)

Lemma RATING_MAP_fijo c r : RATING_MAP !! c = Some r <-> (c, r) ∈ etiquetas.
Proof.
  unfold RATING_MAP, etiquetas.
  rewrite <- elem_of_list_to_map; [reflexivity|].
  apply (bool_decide_unpack _). vm_compute. exact I.
Qed.

Lemma RATING_MAP_rango c r : RATING_MAP !! c = Some r -> 1 <= r <= 5.
Proof.
  intros H. apply RATING_MAP_fijo in H. unfold etiquetas in H.
  repeat (apply elem_of_cons in H as [H|H]; [injection H as _ ->; lia|]).
  now apply elem_of_nil in H.
Qed.

(** The loop of the source finds what [list_find] finds: the first class
    that is a key of the map. *)
Lemma rating_de_clases_primero clases :
  rating_de_clases clases
  = match list_find (fun c => is_Some (RATING_MAP !! c)) clases with
    | Some (_, c) => RATING_MAP !! c
    | None => None
    end.
Proof.
  induction clases as [|c clases IH]; [reflexivity|].
  simpl. destruct (RATING_MAP !! c) as [r|] eqn:E; simpl.
  - now rewrite E.
  - rewrite IH.
    destruct (list_find _ clases) as [[i x]|]; reflexivity.
Qed.

(** *** What the extractor logs and returns *)

Lemma con_registro_nil (w : Mundo) : con_registro (fun r => r ++ []) w = w.
Proof. destruct w. unfold con_registro. cbn. now rewrite app_nil_r. Qed.

Lemma con_registro_app (l1 l2 : list Entrada) (w : Mundo) :
  con_registro (fun r => r ++ l2) (con_registro (fun r => r ++ l1) w)
  = con_registro (fun r => r ++ (l1 ++ l2)) w.
Proof. unfold con_registro. cbn. now rewrite <- app_assoc. Qed.

Lemma normalizar_precio_run (o : option string) (w : Mundo) :
  normalizar_precio o w
  = (o ≫= (fun p => py_float (re_sub_no_numerico p)),
     con_registro (fun r => r ++ avisos_de_precio o) w).
Proof.
  unfold normalizar_precio, avisos_de_precio.
  destruct (no_vacio o) as [p|] eqn:V.
  - apply no_vacio_Some in V as [-> _]. cbn [mbind option_bind].
    destruct (String.eqb_spec (re_sub_no_numerico p) "") as [E|E].
    + rewrite E, con_registro_nil. reflexivity.
    + destruct (py_float (re_sub_no_numerico p)).
      * rewrite con_registro_nil. reflexivity.
      * reflexivity.
  - rewrite con_registro_nil. destruct o as [p|]; [|reflexivity].
    apply no_vacio_None in V. subst p. reflexivity.
Qed.

Lemma forallb_Forall {A} (f : A -> bool) (l : list A) :
  forallb f l = true <-> Forall (fun a => f a = true) l.
Proof.
  induction l as [|a l IH]; cbn [forallb].
  - split; intros _; [constructor|reflexivity].
  - rewrite andb_true_iff, Forall_cons, IH. reflexivity.
Qed.

Section Listado.

Variable lxml : string -> list nodo.
Variable urljoin : string -> string -> option string.

(** The conditional join of an attribute value: the joined address when
    the value is there and [urljoin] accepts it, no address when the value
    is missing or empty, and the exception otherwise. *)
Lemma unir_si_run (o : option string) :
  unir_si urljoin o
  = if unible urljoin (no_vacio o)
    then Some (no_vacio o ≫= urljoin BASE_URL)
    else None.
Proof.
  unfold unir_si, unible. destruct (no_vacio o) as [v|]; [|reflexivity].
  cbn [mbind option_bind]. destruct (urljoin BASE_URL v) as [x|].
  - rewrite bool_decide_eq_true_2 by eauto. reflexivity.
  - rewrite bool_decide_eq_false_2 by apply is_Some_None. reflexivity.
Qed.

(** The run of the loop body on a unit: its dictionary and the warning of
    its price when [urljoin] accepts its addresses; the exception, with
    nothing logged, when it does not. *)
Lemma libro_de_article_run (article : Tag) (w : Mundo) :
  libro_de_article urljoin article w
  = if direcciones_unibles urljoin article
    then (Some (dict_de urljoin article),
          con_registro (fun r => r ++ avisos_de_precio (texto_precio article)) w)
    else (None, w).
Proof.
  unfold libro_de_article, direcciones_unibles, dict_de, src_de, href_de,
    texto_precio.
  assert (match select_one div_image_container_img article with
          | Some img => unir_si urljoin (get img "src")
          | None => Some None
          end
          = if unible urljoin
                 (select_one div_image_container_img article
                    ≫= fun img => no_vacio (get img "src"))
            then Some ((select_one div_image_container_img article
                          ≫= fun img => no_vacio (get img "src"))
                         ≫= urljoin BASE_URL)
            else None) as ->.
  { destruct (select_one div_image_container_img article) as [img|];
      [|reflexivity].
    cbn [mbind option_bind]. apply unir_si_run. }
  assert (match select_one h3_a article with
          | Some a => unir_si urljoin (get a "href")
          | None => Some None
          end
          = if unible urljoin
                 (select_one h3_a article ≫= fun a => no_vacio (get a "href"))
            then Some ((select_one h3_a article
                          ≫= fun a => no_vacio (get a "href"))
                         ≫= urljoin BASE_URL)
            else None) as ->.
  { destruct (select_one h3_a article) as [a|]; [|reflexivity].
    cbn [mbind option_bind]. apply unir_si_run. }
  destruct (unible urljoin (select_one div_image_container_img article ≫= _));
    [|reflexivity].
  destruct (unible urljoin (select_one h3_a article ≫= _)); [|reflexivity].
  cbn [andb]. unfold bind, ret. rewrite normalizar_precio_run.
  destruct (select_one p_star_rating article); reflexivity.
Qed.

Lemma antes_del_fallo_todas (l : list Tag) :
  forallb (direcciones_unibles urljoin) l = true ->
  antes_del_fallo urljoin l = l.
Proof.
  induction l as [|a l IH]; [reflexivity|]. cbn [forallb antes_del_fallo].
  intros H. apply andb_prop in H as [Ha Hl]. rewrite Ha. now rewrite IH.
Qed.

Lemma para_cada_articles_run (l : list Tag) :
  forall (acc : list Libro) (w : Mundo),
    para_cada_o l
      (fun article libros =>
         hacer r <- libro_de_article urljoin article;
         match r with
         | Some libro => ret (Some (libros ++ [libro]))
         | None => ret None
         end) acc w
    = (if forallb (direcciones_unibles urljoin) l
       then Some (acc ++ map (dict_de urljoin) l)
       else None,
       con_registro
         (fun r => r ++ (antes_del_fallo urljoin l
                           ≫= fun a => avisos_de_precio (texto_precio a))) w).
Proof.
  induction l as [|a l IH]; intros acc w.
  - cbn. unfold ret. now rewrite app_nil_r, con_registro_nil.
  - cbn [para_cada_o forallb antes_del_fallo]. unfold bind at 1. unfold bind at 1.
    rewrite libro_de_article_run.
    destruct (direcciones_unibles urljoin a).
    + unfold ret at 1. rewrite IH. rewrite con_registro_app.
      cbn [andb map mbind list_bind]. rewrite <- app_assoc. reflexivity.
    + unfold ret. cbn [andb mbind list_bind]. now rewrite con_registro_nil.
Qed.

(** The run of [parsear_libros_catalogo]: the dictionaries of the units
    when [urljoin] accepts every address, the exception when it rejects
    one; in the log, the warnings of the units the loop got through. *)
Lemma parsear_libros_catalogo_run (html : string) (w : Mundo) :
  parsear_libros_catalogo lxml urljoin html w
  = (if forallb (direcciones_unibles urljoin)
          (select article_product_pod (BeautifulSoup lxml html))
     then Some (map (dict_de urljoin)
                  (select article_product_pod (BeautifulSoup lxml html)))
     else None,
     con_registro
       (fun r =>
          r ++ (antes_del_fallo urljoin
                  (select article_product_pod (BeautifulSoup lxml html))
                  ≫= fun a => avisos_de_precio (texto_precio a))) w).
Proof. unfold parsear_libros_catalogo. now rewrite para_cada_articles_run. Qed.

End Listado.

(** C5, as the code has it. On a page in which [urljoin] accepts the
    image address and the link address of every unit, the ones that are
    there and not empty, [parsear_libros_catalogo] returns one dictionary
    for each [article.product_pod], in document order. Each field comes
    from its own sub-element alone: without the link the title is the
    empty string, without any other sub-element that field is [None], and
    the other fields and the other units are extracted all the same. A
    page with no unit gives the empty list. An address [urljoin] rejects
    in any unit ends the call with its [ValueError], and no dictionary
    comes back. *)
Theorem parsear_libros_catalogo_units
    (lxml : string -> list nodo) (urljoin : string -> string -> option string)
    (html : string) (w : Mundo) :
  let units := select article_product_pod (BeautifulSoup lxml html) in
  let r := fst (parsear_libros_catalogo lxml urljoin html w) in
  (Forall (fun a => direcciones_unibles urljoin a = true) units ->
   exists out,
     r = Some out
     /\ length out = length units
     /\ (forall i article, units !! i = Some article ->
           exists libro, out !! i = Some libro
           /\ titulo libro
              = match select_one h3_a article with
                | Some a => strip (default "" (get a "title"))
                | None => ""
                end
           /\ precio libro
              = (get_text_strip <$> select_one p_price_color article)
                  ≫= (fun t => py_float (re_sub_no_numerico t))
           /\ disponibilidad libro
              = (get_text_strip <$> select_one p_instock_availability article)
           /\ rating libro
              = (select_one p_star_rating article
                   ≫= (fun p => rating_de_clases (get_class p)))
           /\ url_imagen libro
              = (select_one div_image_container_img article
                   ≫= fun img => no_vacio (get img "src") ≫= urljoin BASE_URL)
           /\ detail_url libro
              = (select_one h3_a article
                   ≫= fun a => no_vacio (get a "href") ≫= urljoin BASE_URL)))
  /\ (units = [] -> r = Some [])
  /\ (Exists (fun a => direcciones_unibles urljoin a = false) units ->
      r = None).
Proof.
  intros units r. subst r. rewrite parsear_libros_catalogo_run.
  fold units. cbn [fst]. split; [|split].
  - intros Hu. apply forallb_Forall in Hu. rewrite Hu.
    exists (map (dict_de urljoin) units). split; [reflexivity|].
    split; [now rewrite length_map|].
    intros i article Hi. exists (dict_de urljoin article). split.
    + now rewrite list_lookup_fmap, Hi.
    + split_and!; try reflexivity;
        cbn [dict_de url_imagen detail_url]; unfold src_de, href_de;
        destruct (select_one _ article); reflexivity.
  - intros ->. reflexivity.
  - intros Hex.
    destruct (forallb (direcciones_unibles urljoin) units) eqn:E;
      [|reflexivity].
    apply forallb_Forall in E. rewrite Forall_forall in E.
    apply Exists_exists in Hex as (a & Ha & Hf).
    specialize (E a Ha). simpl in E. congruence.
Qed.

(** The page of the two units: two dictionaries come back, the first
    without image, the second without rating, both with title, price and
    the address of their detail page. *)
Lemma parsear_libros_catalogo_units_witness :
  exists l1 l2,
    fst (parsear_libros_catalogo (fun _ => pagina_dos_unidades) unir_url
           "<html>" mundo_vacio) = Some [l1; l2]
    /\ (titulo l1 = "A Light in the Attic" /\ precio l1 = Some (Qmake 5177 100)
        /\ url_imagen l1 = None
        /\ detail_url l1 = Some "https://books.toscrape.com/a.html")
    /\ (titulo l2 = "Tipping the Velvet" /\ precio l2 = Some (Qmake 5374 100)
        /\ rating l2 = None
        /\ url_imagen l2 = Some "https://books.toscrape.com/b.jpg").
Proof.
  destruct (proj1 (parsear_libros_catalogo_units
                     (fun _ => pagina_dos_unidades) unir_url "<html>"
                     mundo_vacio))
    as (out & Hout & Hlen & Hcampos).
  - vm_compute. repeat constructor.
  - destruct out as [|l1 [|l2 [|l3 out]]]; try discriminate Hlen.
    exists l1, l2. split; [exact Hout|].
    destruct (Hcampos 0%nat primera_unidad) as (x & Hx & Ht & Hp & _ & _ & Hi & Hd);
      [vm_compute; reflexivity|].
    injection Hx as <-.
    destruct (select article_product_pod
                (BeautifulSoup (fun _ => pagina_dos_unidades) "<html>")
                !! 1%nat) as [segunda|] eqn:E2; [|vm_compute in E2; discriminate].
    destruct (Hcampos 1%nat segunda E2) as (y & Hy & Ht2 & Hp2 & _ & Hr2 & Hi2 & _).
    injection Hy as <-.
    vm_compute in E2. injection E2 as <-.
    split; split_and!.
    + rewrite Ht. vm_compute. reflexivity.
    + rewrite Hp. vm_compute. reflexivity.
    + rewrite Hi. vm_compute. reflexivity.
    + rewrite Hd. vm_compute. reflexivity.
    + rewrite Ht2. vm_compute. reflexivity.
    + rewrite Hp2. vm_compute. reflexivity.
    + rewrite Hr2. vm_compute. reflexivity.
    + rewrite Hi2. vm_compute. reflexivity.
Defined.

(** C5 as stated fails. The page has two units, and the link of the
    second has the address [//[], which [urljoin] rejects with a
    [ValueError]: the call raises and no dictionary comes back, not even
    the one of the first unit. *)
Lemma parsear_libros_catalogo_units_counterexample :
  length (select article_product_pod
            (BeautifulSoup (fun _ => pagina_enlace_roto) "<html>")) = 2%nat
  /\ href_de
       <$> select article_product_pod
             (BeautifulSoup (fun _ => pagina_enlace_roto) "<html>") !! 1%nat
     = Some (Some "//[")
  /\ unir_url BASE_URL "//[" = None
  /\ fst (parsear_libros_catalogo (fun _ => pagina_enlace_roto) unir_url
            "<html>" mundo_vacio) = None.
Proof. split_and!; vm_compute; reflexivity. Qed.

(** The scenario of the two units: two dictionaries, the first without
    image, the second without rating, both with title and price. *)
Example parsear_libros_catalogo_dos_unidades :
  fst (parsear_libros_catalogo (fun _ => pagina_dos_unidades) unir_url
         "<html>" mundo_vacio)
  = Some
    [ {| titulo := "A Light in the Attic"; precio := Some (Qmake 5177 100);
         disponibilidad := Some "In stock"; rating := Some 3;
         url_imagen := None;
         detail_url := Some "https://books.toscrape.com/a.html";
         descripcion := None; upc := None; categoria := None |};
      {| titulo := "Tipping the Velvet"; precio := Some (Qmake 5374 100);
         disponibilidad := None; rating := None;
         url_imagen := Some "https://books.toscrape.com/b.jpg";
         detail_url := Some "https://books.toscrape.com/b.html";
         descripcion := None; upc := None; categoria := None |} ].
Proof. vm_compute. reflexivity. Qed.

(** C6. The rating of a unit, in the dictionary the extractor makes of
    it, is the value [RATING_MAP], the fixed map One..Five to 1..5, gives
    for the first class of the unit's [p.star-rating] node that is one of
    its keys; it is [None] when no class is a key or the node is missing.
    Nothing checks that only one class is a key. *)
Theorem rating_first_match
    (urljoin : string -> string -> option string) (article : Tag) (w : Mundo)
    (libro : Libro) :
  fst (libro_de_article urljoin article w) = Some libro ->
  let r := rating libro in
  (forall c v, RATING_MAP !! c = Some v <-> (c, v) ∈ etiquetas)
  /\ match select_one p_star_rating article with
     | None => r = None
     | Some p =>
         match list_find (fun c => is_Some (RATING_MAP !! c)) (get_class p) with
         | Some (_, c) => r = RATING_MAP !! c /\ is_Some r
         | None => r = None
         end
     end
  /\ (forall v, r = Some v -> 1 <= v <= 5).
Proof.
  intros Hlibro r.
  assert (r = select_one p_star_rating article
                ≫= (fun p => rating_de_clases (get_class p))) as Hr.
  { subst r. rewrite libro_de_article_run in Hlibro.
    destruct (direcciones_unibles urljoin article); [|discriminate].
    injection Hlibro as <-. reflexivity. }
  clearbody r. clear Hlibro.
  split; [exact RATING_MAP_fijo|].
  assert (forall v, r = Some v -> exists c, RATING_MAP !! c = Some v) as Hv.
  { intros v. rewrite Hr.
    destruct (select_one p_star_rating article) as [p|]; [|discriminate].
    cbn [mbind option_bind]. rewrite rating_de_clases_primero.
    destruct (list_find _ (get_class p)) as [[i c]|]; [|discriminate].
    eauto. }
  split.
  - rewrite Hr. destruct (select_one p_star_rating article) as [p|];
      [|reflexivity].
    cbn [mbind option_bind]. rewrite rating_de_clases_primero.
    destruct (list_find _ (get_class p)) as [[i c]|] eqn:E; [|reflexivity].
    split; [reflexivity|]. apply list_find_Some in E as (_ & E & _). exact E.
  - intros v Hrv. destruct (Hv v Hrv) as [c Hc].
    eapply RATING_MAP_rango, Hc.
Qed.

(** The first unit of the example page has the classes star-rating and
    Three: its rating is 3. *)
Lemma rating_first_match_witness :
  exists libro,
    fst (libro_de_article unir_url primera_unidad mundo_vacio) = Some libro
    /\ rating libro = Some 3.
Proof.
  exists (dict_de unir_url primera_unidad).
  assert (fst (libro_de_article unir_url primera_unidad mundo_vacio)
          = Some (dict_de unir_url primera_unidad)) as H
    by (vm_compute; reflexivity).
  split; [exact H|].
  destruct (rating_first_match unir_url primera_unidad mundo_vacio _ H)
    as (_ & Hr & _).
  vm_compute in Hr. destruct Hr as [Hr _]. exact Hr.
Defined.

(** Two labels on one node: the first one wins. *)
Example rating_dos_etiquetas :
  rating_de_clases ["star-rating"; "Two"; "Five"] = Some 2
  /\ rating_de_clases ["star-rating"; "two"; "Six"] = None.
Proof. split; reflexivity. Qed.

(** ** The detail extractor *)

(** C7. [parsear_detalle] gives as category the text of the last link of
    the breadcrumb when the trail has three links or more, and [None] when
    it has fewer; so three links give the text of the third and two links
    give [None]. The category is a function of the trail alone: pages with
    the same trail have the same category, whatever their description and
    UPC. *)
Theorem parsear_detalle_categoria (lxml : string -> list nodo) (html : string) :
  let links := select ul_breadcrumb_li_a (BeautifulSoup lxml html) in
  let cat := det_categoria (parsear_detalle lxml html) in
  ((3 <= length links)%nat ->
     exists ultimo, last links = Some ultimo
                    /\ cat = Some (get_text_strip ultimo))
  /\ ((length links < 3)%nat -> cat = None)
  /\ (forall e1 e2 e3, links = [e1; e2; e3] -> cat = Some (get_text_strip e3))
  /\ (forall e1 e2, links = [e1; e2] -> cat = None)
  /\ (forall html',
        select ul_breadcrumb_li_a (BeautifulSoup lxml html') = links ->
        det_categoria (parsear_detalle lxml html') = cat).
Proof.
  intros links cat. subst cat. unfold parsear_detalle.
  cbn [det_categoria]. fold links.
  repeat split.
  - intros H. destruct (last links) as [u|] eqn:E.
    + exists u. split; [reflexivity|].
      apply Nat.leb_le in H. now rewrite H.
    + apply last_None in E. rewrite E in H. simpl in H. lia.
  - intros H. apply Nat.leb_gt in H. now rewrite H.
  - intros e1 e2 e3 ->. reflexivity.
  - intros e1 e2 ->. reflexivity.
  - intros html' ->. reflexivity.
Qed.

Example parsear_detalle_ejemplo :
  parsear_detalle (fun _ => pagina_detalle [Texto "a897fe39b1053632"]) "<html>"
  = {| det_descripcion := Some "It's hard to imagine a world without it.";
       det_upc := Some "a897fe39b1053632";
       det_categoria := Some "Poetry" |}.
Proof. vm_compute. reflexivity. Qed.

Lemma parsear_detalle_categoria_witness :
  det_categoria
    (parsear_detalle (fun _ => pagina_detalle [Texto "a897fe39b1053632"]) "<html>")
  = Some "Poetry".
Proof.
  destruct (proj1 (parsear_detalle_categoria
                     (fun _ => pagina_detalle [Texto "a897fe39b1053632"]) "<html>"))
    as (ultimo & Hu & Hc).
  - vm_compute. lia.
  - rewrite Hc. vm_compute in Hu. injection Hu as <-. vm_compute. reflexivity.
Defined.

(** ** The store and the crawl *)

Lemma verdadero_no_vacio o : verdadero o = bool_decide (is_Some (no_vacio o)).
Proof.
  unfold verdadero, no_vacio. destruct o as [s|]; [|reflexivity].
  destruct (String.eqb s ""); reflexivity.
Qed.





(** A loop keeps what each run of its body keeps, also when the body may
    raise. *)
Lemma para_cada_conserva {A S} (P : Mundo -> Prop) (cuerpo : A -> S -> M S) :
  (forall x s w, P w -> P (snd (cuerpo x s w))) ->
  forall l s w, P w -> P (snd (para_cada l cuerpo s w)).
Proof.
  intros Hc l. induction l as [|x l IH]; intros s w Hw; [exact Hw|].
  simpl. unfold bind. specialize (Hc x s w Hw).
  destruct (cuerpo x s w) as [s' w']. now apply IH.
Qed.

Lemma para_cada_o_conserva {A S} (P : Mundo -> Prop)
    (cuerpo : A -> S -> M (option S)) :
  (forall x s w, P w -> P (snd (cuerpo x s w))) ->
  forall l s w, P w -> P (snd (para_cada_o l cuerpo s w)).
Proof.
  intros Hc l. induction l as [|x l IH]; intros s w Hw; [exact Hw|].
  cbn [para_cada_o]. unfold bind. specialize (Hc x s w Hw).
  destruct (cuerpo x s w) as [[s'|] w']; [now apply IH|exact Hc].
Qed.

(** *** The attempt to insert *)

Lemma tras_intento_fst ins com ahora (libro : Libro) (ti : Z) (w : Mundo) :
  fst (tras_intento ins com ahora libro ti w)
  = if ins (reloj w) || com (reloj w) then ti else ti + 1.
Proof.
  unfold tras_intento. destruct (ins (reloj w)); [reflexivity|].
  destruct (com (reloj w)); reflexivity.
Qed.

Lemma tras_intento_vista ins com ahora (libro : Libro) (ti : Z) (w : Mundo) :
  vista (snd (tras_intento ins com ahora libro ti w))
  = vista_tras_insert ins ahora libro w.
Proof.
  unfold tras_intento, vista_tras_insert.
  destruct (ins (reloj w)); [reflexivity|].
  destruct (com (reloj w)); unfold vista; cbn.
  - now rewrite app_assoc.
  - now rewrite app_nil_r, app_assoc.
Qed.

Lemma tras_intento_libros ins com ahora (libro : Libro) (ti : Z) (w : Mundo) :
  libros (snd (tras_intento ins com ahora libro ti w))
  = libros_tras_insert ins com ahora libro w.
Proof.
  unfold tras_intento, libros_tras_insert.
  destruct (ins (reloj w)); [reflexivity|].
  destruct (com (reloj w)); unfold vista; cbn; [reflexivity|].
  now rewrite app_assoc.
Qed.


Lemma tras_intento_traza ins com ahora (libro : Libro) (ti : Z) (w : Mundo) :
  sql (snd (tras_intento ins com ahora libro ti w)) = sql w ++ [InsertLibro]
  /\ reloj (snd (tras_intento ins com ahora libro ti w)) = S (reloj w)
  /\ pausas (snd (tras_intento ins com ahora libro ti w)) = pausas w.
Proof.
  unfold tras_intento. destruct (ins (reloj w)); [repeat split|].
  destruct (com (reloj w)); repeat split.
Qed.

Section Orquestador.

Variable lxml : string -> list nodo.
Variable urljoin : string -> string -> option string.
Variable http_get : nat -> string -> option string.
Variable insert_falla : nat -> bool.
Variable commit_falla : nat -> bool.
Variable ahora : nat -> string.

(** *** The fetcher *)

Lemma obtener_html_run (url : string) (w : Mundo) :
  obtener_html http_get url w
  = match http_get (reloj w) url with
    | Some text => (Some text, tras_get url w)
    | None => (None, tras_get_fallido url w)
    end.
Proof.
  unfold obtener_html, bind, ret, leer, modificar, logging.
  simpl. destruct (http_get (reloj w) url); reflexivity.
Qed.

(** *** The store *)

Lemma existe_libro_run (o : option string) (w : Mundo) :
  existe_libro o w
  = match no_vacio o with
    | None => (false, w)
    | Some u =>
        (bool_decide (Exists (fun f => fila_upc f = Some u) (vista w)),
         con_sql (fun l => l ++ [SelectUpc u]) w)
    end.
Proof. unfold existe_libro. destruct (no_vacio o); reflexivity. Qed.

Lemma insertar_libro_run (libro : Libro) (w : Mundo) :
  insertar_libro insert_falla commit_falla ahora libro w
  = if insert_falla (reloj w) then (DatabaseError, tras_insert_fallido w)
    else if commit_falla (reloj w)
         then (DatabaseError, tras_insert_pendiente ahora libro w)
         else (Hecho, tras_insert ahora libro w).
Proof.
  unfold insertar_libro, bind, ret, leer, modificar. simpl.
  destruct (insert_falla (reloj w)); [reflexivity|].
  destruct (commit_falla (reloj w)); reflexivity.
Qed.

(** *** The duplicate control and the insertion *)

(** The attempt to insert as [main] makes it: the insertion, and the log
    record of its outcome. *)
Lemma main_intento (libro : Libro) (ti : Z) (w : Mundo) :
  (hacer r <- insertar_libro insert_falla commit_falla ahora libro;
   match r with
   | Hecho =>
       logging INFO "Insertado [%s] %s"
         [ArgInt (ti + 1); ArgStr (titulo libro)];;;
       ret (ti + 1)
   | DatabaseError =>
       logging ERROR "Error al insertar libro '%s': %s"
         [ArgStr (titulo libro); ArgExc];;;
       ret ti
   end) w
  = tras_intento insert_falla commit_falla ahora libro ti w.
Proof.
  unfold bind at 1. rewrite insertar_libro_run. unfold tras_intento.
  destruct (insert_falla (reloj w)); [reflexivity|].
  destruct (commit_falla (reloj w)); reflexivity.
Qed.

(** [main_commit] when the UPC is absent or empty: no query is sent and
    the insertion is attempted. *)
Lemma main_commit_sin_upc (libro : Libro) (ti : Z) (w : Mundo) :
  no_vacio (upc libro) = None ->
  main_commit insert_falla commit_falla ahora libro ti w
  = tras_intento insert_falla commit_falla ahora libro ti w.
Proof.
  intros H. unfold main_commit.
  rewrite verdadero_no_vacio, H.
  rewrite bool_decide_eq_false_2 by apply is_Some_None.
  unfold bind at 1, ret at 1. apply main_intento.
Qed.

(** [main_commit] when the connection sees the UPC in the table: the book
    is left out. *)
Lemma main_commit_existente (libro : Libro) (ti : Z) (w : Mundo) (u : string) :
  no_vacio (upc libro) = Some u ->
  Exists (fun f => fila_upc f = Some u) (vista w) ->
  main_commit insert_falla commit_falla ahora libro ti w
  = (ti,
     anotar (entrada INFO "Libro ya existente (UPC=%s), se omite: %s"
               [arg_de (upc libro); ArgStr (titulo libro)])
       (con_sql (fun l => l ++ [SelectUpc u]) w)).
Proof.
  intros H Hex. unfold main_commit.
  rewrite verdadero_no_vacio, H.
  rewrite bool_decide_eq_true_2 by eauto.
  unfold bind at 1. rewrite existe_libro_run, H.
  rewrite bool_decide_eq_true_2 by exact Hex.
  reflexivity.
Qed.

(** [main_commit] when the connection does not see the UPC: the insertion
    is attempted after the query. *)
Lemma main_commit_nuevo (libro : Libro) (ti : Z) (w : Mundo) (u : string) :
  no_vacio (upc libro) = Some u ->
  ~ Exists (fun f => fila_upc f = Some u) (vista w) ->
  main_commit insert_falla commit_falla ahora libro ti w
  = tras_intento insert_falla commit_falla ahora libro ti
      (con_sql (fun l => l ++ [SelectUpc u]) w).
Proof.
  intros H Hex. unfold main_commit.
  rewrite verdadero_no_vacio, H.
  rewrite bool_decide_eq_true_2 by eauto.
  unfold bind at 1. rewrite existe_libro_run, H.
  rewrite bool_decide_eq_false_2 by exact Hex.
  apply main_intento.
Qed.


(** *** The detail of a book *)

Lemma main_detalle_run (libro : Libro) (td : Z) (w : Mundo) :
  main_detalle lxml http_get libro td w
  = match no_vacio (detail_url libro) with
    | None => (None, None, None, td, anotar (aviso_sin_url libro) w)
    | Some url =>
        match http_get (reloj w) url with
        | None =>
            (None, None, None, td,
             anotar (aviso_sin_detalle libro) (tras_get_fallido url w))
        | Some text =>
            match no_vacio (Some text) with
            | None =>
                (None, None, None, td,
                 anotar (aviso_sin_detalle libro) (tras_get url w))
            | Some html =>
                (det_descripcion (parsear_detalle lxml html),
                 det_upc (parsear_detalle lxml html),
                 det_categoria (parsear_detalle lxml html), td + 1,
                 tras_get url w)
            end
        end
    end.
Proof.
  unfold main_detalle.
  destruct (no_vacio (detail_url libro)) as [url|]; [|reflexivity].
  unfold bind at 1. rewrite obtener_html_run.
  destruct (http_get (reloj w) url) as [text|]; [|reflexivity].
  destruct (no_vacio (Some text)); reflexivity.
Qed.


(** The body of the loop over the books: the detail, then the commit of
    the completed dictionary. *)
Lemma main_libro_run (libro : Libro) (ti td : Z) (w : Mundo) :
  main_libro lxml http_get insert_falla commit_falla ahora libro (ti, td) w
  = let '(d, u, c, td', w1) := main_detalle lxml http_get libro td w in
    let '(ti', w2) :=
      main_commit insert_falla commit_falla ahora
        (asignar_detalle libro d u c) ti w1 in
    (ti', td', w2).
Proof.
  unfold main_libro. unfold bind at 1.
  destruct (main_detalle lxml http_get libro td w) as [[[[d u] c] td'] w1].
  unfold bind at 1.
  destruct (main_commit insert_falla commit_falla ahora
              (asignar_detalle libro d u c) ti w1)
    as [ti' w2].
  reflexivity.
Qed.


(** *** The pages *)

(** The run of [main_pagina]: [urljoin] rejects the address of the page;
    or the page is left out; or [urljoin] rejects an address in it; or its
    books are processed in the world the fetch and the parse leave. *)
Lemma main_pagina_run (page : Z) (totales : Z * Z) (w : Mundo) :
  main_pagina lxml urljoin http_get insert_falla commit_falla ahora
    page totales w
  = match url_catalogo urljoin page with
    | None => (None, w)
    | Some url =>
        match http_get (reloj w) url with
        | None =>
            (Some totales, anotar (aviso_pagina page) (tras_get_fallido url w))
        | Some text =>
            match no_vacio (Some text) with
            | None =>
                (Some totales, anotar (aviso_pagina page) (tras_get url w))
            | Some html =>
                let units :=
                  select article_product_pod (BeautifulSoup lxml html) in
                let w1 :=
                  con_registro
                    (fun r =>
                       r ++ (antes_del_fallo urljoin units
                               ≫= fun a => avisos_de_precio (texto_precio a)))
                    (tras_get url w) in
                if forallb (direcciones_unibles urljoin) units then
                  let catalogo := map (dict_de urljoin) units in
                  let r :=
                    para_cada catalogo
                      (main_libro lxml http_get insert_falla commit_falla ahora)
                      totales
                      (anotar (entrada INFO "Página %s: %s libros encontrados"
                                 [ArgInt page;
                                  ArgInt (Z.of_nat (length catalogo))])
                         w1) in
                  (Some (fst r), snd r)
                else (None, w1)
            end
        end
    end.
Proof.
  unfold main_pagina.
  destruct (url_catalogo urljoin page) as [url|]; [|reflexivity].
  unfold bind at 1. rewrite obtener_html_run.
  destruct (http_get (reloj w) url) as [text|]; [|reflexivity].
  destruct (no_vacio (Some text)) as [html|]; [|reflexivity].
  unfold bind at 1. rewrite parsear_libros_catalogo_run.
  destruct (forallb (direcciones_unibles urljoin) _); [|reflexivity].
  unfold bind at 1. unfold logging at 1, modificar at 1. unfold bind at 1.
  cbv zeta.
  destruct (para_cada _ _ totales _) as [t v]. reflexivity.
Qed.


(** The run of [main]: the loop over the pages in a new connection, and,
    when no page raised, the close and the last record. *)
Lemma main_run (w : Mundo) :
  main lxml urljoin http_get insert_falla commit_falla ahora w
  = match
      para_cada_o [1; 2; 3]
        (main_pagina lxml urljoin http_get insert_falla commit_falla ahora)
        (0, 0) (mundo_inicial w)
    with
    | (None, w') => (None, w')
    | (Some (ti, td), w') =>
        (Some tt, anotar (resumen ti td) (sin_transaccion w'))
    end.
Proof.
  unfold main, configurar_logger, crear_conexion, close, mundo_inicial.
  unfold anotar, entrada, resumen.
  unfold bind at 1, ret at 1. unfold bind at 1, logging at 1, modificar at 1.
  unfold bind at 1. unfold bind at 1, modificar at 1, modificar at 1.
  unfold bind at 1.
  match goal with
  | |- context [para_cada_o ?l ?f ?s0 ?w0] =>
      destruct (para_cada_o l f s0 w0) as [[[ti td]|] w2]
  end; reflexivity.
Qed.


(** *** Rows with a given UPC *)








(** C10. A GET that returns an empty body is handled as a GET that
    raises. For a listing page the page is left out: the totals are
    returned as they were, nothing is parsed and the same warning is
    logged. For a detail page the three detail fields are [None], the
    count of details read is not incremented and the same warning is
    logged. The worlds of the two cases differ only in what the fetcher
    itself logged and slept; the table and the SQL trace are those of
    before. [cat] is the address of the listing page. *)
Theorem cuerpo_vacio_como_fallo
    (page : Z) (totales : Z * Z) (libro : Libro) (td : Z) (cat url : string)
    (w : Mundo) :
  url_catalogo urljoin page = Some cat ->
  (http_get (reloj w) cat = Some "" ->
     main_pagina lxml urljoin http_get insert_falla commit_falla ahora
       page totales w
     = (Some totales, anotar (aviso_pagina page) (tras_get cat w)))
  /\ (http_get (reloj w) cat = None ->
       main_pagina lxml urljoin http_get insert_falla commit_falla ahora
         page totales w
       = (Some totales, anotar (aviso_pagina page) (tras_get_fallido cat w)))
  /\ (no_vacio (detail_url libro) = Some url ->
       http_get (reloj w) url = Some "" ->
       main_detalle lxml http_get libro td w
       = (None, None, None, td,
          anotar (aviso_sin_detalle libro) (tras_get url w)))
  /\ (no_vacio (detail_url libro) = Some url ->
       http_get (reloj w) url = None ->
       main_detalle lxml http_get libro td w
       = (None, None, None, td,
          anotar (aviso_sin_detalle libro) (tras_get_fallido url w)))
  /\ (forall e u,
       libros (anotar e (tras_get u w)) = libros w
       /\ libros (anotar e (tras_get_fallido u w)) = libros w
       /\ vista (anotar e (tras_get u w)) = vista w
       /\ vista (anotar e (tras_get_fallido u w)) = vista w
       /\ sql (anotar e (tras_get u w)) = sql w
       /\ sql (anotar e (tras_get_fallido u w)) = sql w)
  /\ url_catalogo urljoin 1 = Some BASE_URL.
Proof.
  intros Hcat. split_and!.
  - intros H. rewrite main_pagina_run, Hcat, H. reflexivity.
  - intros H. rewrite main_pagina_run, Hcat, H. reflexivity.
  - intros Hu H. rewrite main_detalle_run, Hu, H. reflexivity.
  - intros Hu H. rewrite main_detalle_run, Hu, H. reflexivity.
  - intros e u. repeat split.
  - reflexivity.
Qed.

End Orquestador.

(** ** Concrete runs *)




Example main_libro_sin_detalle_upcs :
  omap fila_upc (libros mundo_con_libro) = ["a897fe39b1053632"]
  /\ map fila_upc
       (libros
          (snd (main_libro (fun _ => pagina_detalle [Texto "a897fe39b1053632"])
                  red_caida almacen_fiable almacen_fiable reloj_fijo
                  libro_listado (1, 0) mundo_con_libro)))
     = [Some "a897fe39b1053632"; None].
Proof. split; vm_compute; reflexivity. Qed.


(** An empty detail body: the three fields are absent and the count of
    details read stays at 0. *)
Lemma cuerpo_vacio_como_fallo_witness :
  fst (main_detalle (fun _ => pagina_detalle [Texto "a897fe39b1053632"])
         red_cuerpo_vacio libro_listado 0 mundo_vacio)
  = (None, None, None, 0).
Proof.
  destruct (cuerpo_vacio_como_fallo
              (fun _ => pagina_detalle [Texto "a897fe39b1053632"])
              unir_url red_cuerpo_vacio almacen_fiable almacen_fiable
              reloj_fijo 1 (0, 0) libro_listado 0 BASE_URL
              "https://books.toscrape.com/a.html" mundo_vacio)
    as (_ & _ & H & _).
  - reflexivity.
  - rewrite H; reflexivity.
Defined.

(** An empty listing body: [main] leaves the three pages out and the table
    stays empty. *)
Example main_cuerpos_vacios :
  libros (snd (main (fun _ => pagina_dos_unidades) unir_url red_cuerpo_vacio
                 almacen_fiable almacen_fiable reloj_fijo mundo_vacio)) = []
  /\ pausas (snd (main (fun _ => pagina_dos_unidades) unir_url red_cuerpo_vacio
                    almacen_fiable almacen_fiable reloj_fijo mundo_vacio))
     = 3%nat.
Proof. split; vm_compute; reflexivity. Qed.

(** ** The export *)

#[global]
Instance por_id_total : Total por_id.
Proof. intros f g. unfold por_id. lia. Qed.

Section Exportacion.

Variable str_float : Q -> string.
Variable repr_tuple : list Celda -> string.

Lemma print_rows (rows : list (list Celda)) : forall w : Mundo,
  para_cada rows (fun row _ => print (repr_tuple row)) tt w
  = (tt, con_consola (fun l => l ++ map repr_tuple rows) w).
Proof.
  induction rows as [|row rows IH]; intros w.
  - simpl. unfold ret, con_consola. rewrite app_nil_r. now destruct w.
  - cbn [para_cada]. unfold bind at 1. unfold print at 1, modificar at 1.
    rewrite IH. f_equal. unfold con_consola. cbn.
    now rewrite <- app_assoc.
Qed.

(** C4, as the code has it. The export reads the first ten rows by [id]
    and writes a comma-separated file: a header row, which is the select
    list of the query, id, titulo, precio, disponibilidad, rating,
    categoria, upc, and then one row for each row read with its values
    in these seven columns. The select list takes its names from the
    columns of the table but not in their order: categoria comes before
    upc, and url_imagen, descripcion and fecha_extraccion are left out.
    The rows are also printed to the console, and the table is not
    written; the only statement sent is the SELECT. *)
Theorem exportar_primeros_10_csv (output_csv : string) (w : Mundo) :
  let w' := snd (exportar_primeros_10 str_float repr_tuple output_csv w) in
  let filas := primeros_10 (libros w) in
  let rows := map (fun f => map (fun c => columna c f) columnas_select) filas in
  (exists ordenadas,
      ordenadas ≡ₚ libros w /\ Sorted por_id ordenadas
      /\ filas = take 10 ordenadas)
  /\ (forall f,
        map (fun c => columna c f) columnas_select
        = [ CInt (fila_id f); CTexto (fila_titulo f);
            celda_real (fila_precio f); celda_texto (fila_disponibilidad f);
            celda_int (fila_rating f); celda_texto (fila_categoria f);
            celda_texto (fila_upc f) ])
  /\ archivos w'
     = <[ output_csv :=
            writerow str_float (map CTexto columnas_select)
              +:+ foldr String.append EmptyString
                    (map (writerow str_float) rows) ]> (archivos w)
  /\ writerow str_float (map CTexto columnas_select)
     = "id,titulo,precio,disponibilidad,rating,categoria,upc" +:+ CRLF
  /\ consola w'
     = consola w ++ ["Primeros 10 registros:"] ++ map repr_tuple rows
         ++ [String LF "Exportado a " +:+ output_csv]
  /\ (libros w' = libros w /\ secuencia w' = secuencia w
      /\ sql w' = sql w ++ [SelectPrimeros10])
  /\ (columnas_select ⊆ columnas_tabla
      /\ filter (fun c => c ∈ columnas_select) columnas_tabla
         = ["id"; "titulo"; "precio"; "disponibilidad"; "rating"; "upc";
            "categoria"]).
Proof.
  intros w' filas rows.
  assert (w' = con_consola
                 (fun l => l ++ [String LF "Exportado a " +:+ output_csv])
                 (con_archivos
                    (insert output_csv
                       (writerow str_float (map CTexto columnas_select)
                          +:+ foldr String.append EmptyString
                                (map (writerow str_float) rows)))
                    (con_consola (fun l => l ++ map repr_tuple rows)
                       (con_consola (fun l => l ++ ["Primeros 10 registros:"])
                          (con_sql (fun l => l ++ [SelectPrimeros10]) w)))))
    as Hw.
  { subst w'. unfold exportar_primeros_10.
    unfold bind at 1, modificar at 1. unfold bind at 1, leer at 1.
    unfold bind at 1, print at 1, modificar at 1. unfold bind at 1.
    cbn [libros con_sql con_consola]. fold filas. fold rows.
    rewrite print_rows. unfold bind at 1, modificar at 1.
    reflexivity. }
  split; [|split; [|split; [|split; [|split; [|split]]]]].
  - exists (merge_sort por_id (libros w)). split; [|split].
    + apply merge_sort_Permutation.
    + apply Sorted_merge_sort. apply _.
    + reflexivity.
  - intros f. reflexivity.
  - rewrite Hw. reflexivity.
  - reflexivity.
  - rewrite Hw. cbn. now rewrite <- !app_assoc.
  - rewrite Hw. repeat split; reflexivity.
  - split.
    + apply (bool_decide_unpack _). vm_compute. exact I.
    + vm_compute. reflexivity.
Qed.

End Exportacion.

(** A field with the delimiter is quoted, [NULL] is written as the empty
    field, and a quote character inside a field is written twice. *)
Example writerow_comillas :
  writerow sin_floats [CInt 1; CTexto "Tea, Earl Grey"; CNull]
  = "1," +:+ String comilla "Tea, Earl Grey" +:+ String comilla "," +:+ CRLF
  /\ csv_campo (String comilla "x")
     = String comilla (String comilla (String comilla "x"))
         +:+ String comilla EmptyString.
Proof. split; vm_compute; reflexivity. Qed.

(** C4 as stated fails: on the empty table the file holds the header row
    alone, and it is not the row of the column names of the table in the
    order of the table. *)
Lemma exportar_primeros_10_csv_counterexample :
  archivos
    (snd (exportar_primeros_10 sin_floats (fun _ => EmptyString)
            "primeros_10_libros.csv" mundo_vacio))
    !! "primeros_10_libros.csv"
  = Some ("id,titulo,precio,disponibilidad,rating,categoria,upc" +:+ CRLF)
  /\ writerow sin_floats (map CTexto columnas_tabla)
     = "id,titulo,precio,disponibilidad,rating,url_imagen,descripcion,upc,categoria,fecha_extraccion"
         +:+ CRLF
  /\ columnas_select <> columnas_tabla.
Proof.
  split; [vm_compute; reflexivity|].
  split; [vm_compute; reflexivity|].
  discriminate.
Qed.


(** * Further properties *)

(** ** Loops *)

(** A loop relates its ends as each run of its body does, for a relation
    that is reflexive and transitive. *)
Lemma para_cada_rel {A S} (R : S -> Mundo -> S -> Mundo -> Prop)
    (cuerpo : A -> S -> M S) (l : list A) :
  (forall s w, R s w s w) ->
  (forall s1 w1 s2 w2 s3 w3, R s1 w1 s2 w2 -> R s2 w2 s3 w3 -> R s1 w1 s3 w3) ->
  (forall x s w, x ∈ l -> R s w (fst (cuerpo x s w)) (snd (cuerpo x s w))) ->
  forall s w,
    R s w (fst (para_cada l cuerpo s w)) (snd (para_cada l cuerpo s w)).
Proof.
  intros Hrefl Htrans. induction l as [|x l IH]; intros Hc s w.
  - apply Hrefl.
  - cbn [para_cada]. unfold bind.
    pose proof (Hc x s w (list_elem_of_here x l)) as Hx.
    destruct (cuerpo x s w) as [s' w']. cbn [fst snd] in Hx.
    eapply Htrans; [exact Hx|]. apply IH.
    intros y t v Hy. apply Hc. now apply list_elem_of_further.
Qed.

(** The same for a loop whose body may raise: the world it leaves is
    related to the one it found for some value of the local variables,
    which is the value returned when the loop returns. *)
Lemma para_cada_o_rel {A S} (R : S -> Mundo -> S -> Mundo -> Prop)
    (cuerpo : A -> S -> M (option S)) (l : list A) :
  (forall s w, R s w s w) ->
  (forall s1 w1 s2 w2 s3 w3, R s1 w1 s2 w2 -> R s2 w2 s3 w3 -> R s1 w1 s3 w3) ->
  (forall x s w, x ∈ l ->
     exists s', R s w s' (snd (cuerpo x s w))
                /\ (forall t, fst (cuerpo x s w) = Some t -> t = s')) ->
  forall s w,
    exists s', R s w s' (snd (para_cada_o l cuerpo s w))
               /\ (forall t, fst (para_cada_o l cuerpo s w) = Some t -> t = s').
Proof.
  intros Hrefl Htrans. induction l as [|x l IH]; intros Hc s w.
  - exists s. split; [apply Hrefl|]. now intros t [= <-].
  - cbn [para_cada_o]. unfold bind.
    destruct (Hc x s w (list_elem_of_here x l)) as (s1 & Hx & Hs1).
    destruct (cuerpo x s w) as [[t1|] w1]; cbn [fst snd] in *.
    + rewrite <- (Hs1 t1 eq_refl) in Hx.
      destruct (IH (fun y t v Hy => Hc y t v (list_elem_of_further _ _ _ Hy))
                  t1 w1) as (s2 & H2 & Hs2).
      exists s2. split; [|exact Hs2]. eapply Htrans; eassumption.
    + exists s1. split; [exact Hx|]. intros t. discriminate.
Qed.

(** ** Progress of a run *)

Lemma ids_en_curso_orden (w : Mundo) : ids_en_curso w -> ids_en_orden w.
Proof.
  unfold ids_en_curso, ids_en_orden, vista. intros (Hs & Hl & _).
  split; [|exact Hl]. now apply StronglySorted_app_1_l in Hs.
Qed.

Lemma ids_en_orden_curso (w : Mundo) :
  pendientes w = [] -> ids_en_orden w -> ids_en_curso w.
Proof.
  unfold ids_en_curso, ids_en_orden, vista. intros -> (Hs & Hl).
  rewrite app_nil_r. split_and!; [exact Hs|exact Hl|constructor].
Qed.

(** The order of the ids depends on the store alone. *)
Lemma ids_en_curso_ext (w w' : Mundo) :
  libros w' = libros w -> pendientes w' = pendientes w ->
  secuencia w' = secuencia w ->
  ids_en_curso w -> ids_en_curso w'.
Proof.
  unfold ids_en_curso, vista, secuencia_vista. now intros -> -> ->.
Qed.

(** An INSERT that is accepted takes the next id, and a commit keeps the
    ids. *)
Lemma ids_en_curso_insert (ahora : nat -> string) (libro : Libro) (w : Mundo) :
  ids_en_curso w -> ids_en_curso (tras_insert_pendiente ahora libro w).
Proof.
  unfold ids_en_curso, vista, secuencia_vista.
  cbn [libros pendientes secuencia tras_insert_pendiente con_pendientes
       tras_insert_fallido con_sql con_reloj].
  intros (Hs & Hl & Hp). rewrite length_app, Nat2Z.inj_add. cbn [length].
  split_and!.
  - rewrite app_assoc. apply StronglySorted_app_2; [|exact Hs|repeat constructor].
    intros x1 x2 H1 H2. apply list_elem_of_singleton in H2. subst x2.
    unfold antes, fila_nueva, secuencia_vista. cbn [fila_id fila_de].
    rewrite Forall_forall in Hl, Hp.
    apply elem_of_app in H1 as [H1|H1]; [specialize (Hl x1 H1)|specialize (Hp x1 H1)];
      cbn beta in *; lia.
  - exact Hl.
  - apply Forall_app. split.
    + eapply Forall_impl; [exact Hp|]. intros g Hg. cbn beta in *. lia.
    + constructor; [|constructor]. unfold fila_nueva, secuencia_vista.
      cbn [fila_id fila_de]. lia.
Qed.

Lemma ids_en_curso_confirmar (w : Mundo) :
  ids_en_curso w -> ids_en_curso (confirmar w).
Proof.
  unfold ids_en_curso, vista, secuencia_vista.
  cbn [libros pendientes secuencia confirmar con_pendientes con_secuencia
       con_libros vista secuencia_vista].
  intros (Hs & Hl & Hp). rewrite app_nil_r. split_and!.
  - exact Hs.
  - apply Forall_app. split; [|exact Hp].
    eapply Forall_impl; [exact Hl|]. intros g Hg. cbn beta in *.
    unfold secuencia_vista. lia.
  - constructor.
Qed.




Section Progreso.

Variable commit_falla : nat -> bool.

Lemma progreso_refl (s : Z * Z) (w : Mundo) : progreso commit_falla s w s w.
Proof.
  unfold progreso. split_and!; try reflexivity; try lia.
  - intros H. exact H.
  - intros _ H. split; [exact H|reflexivity].
Qed.

Lemma progreso_trans (s1 s2 s3 : Z * Z) (w1 w2 w3 : Mundo) :
  progreso commit_falla s1 w1 s2 w2 -> progreso commit_falla s2 w2 s3 w3 ->
  progreso commit_falla s1 w1 s3 w3.
Proof.
  unfold progreso.
  intros (P1 & V1 & C1 & D1 & E1 & I1 & F1) (P2 & V2 & C2 & D2 & E2 & I2 & F2).
  split_and!; try lia.
  - now transitivity (libros w2).
  - now transitivity (vista w2).
  - intros H. apply I2, I1, H.
  - intros Hc H. destruct (F1 Hc H) as [H1 E]. destruct (F2 Hc H1) as [H2 E'].
    split; [exact H2|lia].
Qed.

(** A step that leaves the store alone and takes no pause away is progress
    for any counters. *)
Lemma progreso_mismo_almacen (s : Z * Z) (w w' : Mundo) :
  libros w' = libros w -> pendientes w' = pendientes w ->
  secuencia w' = secuencia w -> (pausas w <= pausas w')%nat ->
  progreso commit_falla s w s w'.
Proof.
  unfold progreso, vista. intros Hl Hp Hs Hpa. rewrite Hl, Hp.
  split_and!; try reflexivity; try lia.
  - now apply ids_en_curso_ext.
  - intros _ H. split; [exact H|reflexivity].
Qed.

(** The attempt to insert is progress. *)
Lemma tras_intento_progreso (insert_falla : nat -> bool) (ahora : nat -> string)
    (libro : Libro) (ti td : Z) (w : Mundo) :
  progreso commit_falla (ti, td) w
    (fst (tras_intento insert_falla commit_falla ahora libro ti w), td)
    (snd (tras_intento insert_falla commit_falla ahora libro ti w)).
Proof.
  pose proof (tras_intento_traza insert_falla commit_falla ahora libro ti w)
    as (_ & _ & Hpa).
  unfold progreso. cbn [fst snd].
  rewrite tras_intento_fst, tras_intento_libros, tras_intento_vista, Hpa.
  unfold libros_tras_insert, vista_tras_insert, tras_intento.
  destruct (insert_falla (reloj w)) eqn:F; cbn [orb].
  - split_and!; try reflexivity; try lia.
    + now apply ids_en_curso_ext.
    + intros _ H. split; [exact H|reflexivity].
  - destruct (commit_falla (reloj w)) eqn:C.
    + split_and!; try reflexivity; try lia.
      * now apply prefix_app_r.
      * intros H. cbn [snd].
        apply (ids_en_curso_ext (tras_insert_pendiente ahora libro w));
          try reflexivity.
        now apply ids_en_curso_insert.
      * intros Hc. rewrite Hc in C. discriminate.
    + unfold vista. rewrite !length_app. cbn [length].
      split_and!; try lia.
      * rewrite <- app_assoc. now apply prefix_app_r.
      * now apply prefix_app_r.
      * intros H. cbn [snd].
        apply (ids_en_curso_ext (tras_insert ahora libro w));
          try reflexivity.
        now apply ids_en_curso_confirmar, ids_en_curso_insert.
      * intros _ H. rewrite H. cbn [length]. split; [reflexivity|lia].
Qed.

End Progreso.

Section Recorrido.

Variable lxml : string -> list nodo.
Variable urljoin : string -> string -> option string.
Variable http_get : nat -> string -> option string.
Variable insert_falla : nat -> bool.
Variable commit_falla : nat -> bool.
Variable ahora : nat -> string.

Lemma main_commit_progreso (libro : Libro) (ti td : Z) (w : Mundo) :
  progreso commit_falla (ti, td) w
    (fst (main_commit insert_falla commit_falla ahora libro ti w), td)
    (snd (main_commit insert_falla commit_falla ahora libro ti w)).
Proof.
  destruct (no_vacio (upc libro)) as [u|] eqn:E.
  - destruct (decide (Exists (fun f => fila_upc f = Some u) (vista w)))
      as [Hex|Hex].
    + rewrite (main_commit_existente insert_falla commit_falla ahora
                 libro ti w u E Hex).
      apply progreso_mismo_almacen; cbn; solve [reflexivity | lia].
    + rewrite (main_commit_nuevo insert_falla commit_falla ahora
                 libro ti w u E Hex).
      eapply progreso_trans; [|apply tras_intento_progreso].
      apply progreso_mismo_almacen; cbn; solve [reflexivity | lia].
  - rewrite (main_commit_sin_upc insert_falla commit_falla ahora libro ti w E).
    apply tras_intento_progreso.
Qed.

Lemma main_detalle_progreso (libro : Libro) (ti td : Z) (w : Mundo) :
  progreso commit_falla (ti, td) w
    (ti, snd (fst (main_detalle lxml http_get libro td w)))
    (snd (main_detalle lxml http_get libro td w)).
Proof.
  assert (forall v td',
             libros v = libros w -> pendientes v = pendientes w ->
             secuencia v = secuencia w ->
             td <= td' ->
             td' - td <= Z.of_nat (pausas v) - Z.of_nat (pausas w) ->
             progreso commit_falla (ti, td) w (ti, td') v) as Hpaso.
  { intros v td' Hl Hp Hs H1 H2. unfold progreso, vista. rewrite Hl, Hp.
    cbn [fst snd]. split_and!; try reflexivity; try lia.
    - now apply ids_en_curso_ext.
    - intros _ H. split; [exact H|lia]. }
  rewrite main_detalle_run.
  destruct (no_vacio (detail_url libro)) as [url|].
  - destruct (http_get (reloj w) url) as [text|].
    + destruct (no_vacio (Some text)); apply Hpaso; cbn; solve [reflexivity | lia].
    + apply Hpaso; cbn; solve [reflexivity | lia].
  - apply Hpaso; cbn; solve [reflexivity | lia].
Qed.

Lemma main_libro_progreso (libro : Libro) (s : Z * Z) (w : Mundo) :
  progreso commit_falla s w
    (fst (main_libro lxml http_get insert_falla commit_falla ahora libro s w))
    (snd (main_libro lxml http_get insert_falla commit_falla ahora libro s w)).
Proof.
  destruct s as [ti td]. rewrite main_libro_run.
  pose proof (main_detalle_progreso libro ti td w) as Hd.
  destruct (main_detalle lxml http_get libro td w) as [[[[d u] c] td'] w1].
  cbn [fst snd] in Hd.
  pose proof (main_commit_progreso (asignar_detalle libro d u c) ti td' w1) as Hc.
  destruct (main_commit insert_falla commit_falla ahora
              (asignar_detalle libro d u c) ti w1)
    as [ti' w2].
  cbn [fst snd] in *. eapply progreso_trans; eassumption.
Qed.

Lemma para_cada_libros_progreso (l : list Libro) (s : Z * Z) (w : Mundo) :
  progreso commit_falla s w
    (fst (para_cada l
            (main_libro lxml http_get insert_falla commit_falla ahora) s w))
    (snd (para_cada l
            (main_libro lxml http_get insert_falla commit_falla ahora) s w)).
Proof.
  apply (para_cada_rel (progreso commit_falla)).
  - apply progreso_refl.
  - intros *. apply progreso_trans.
  - intros x t v _. apply main_libro_progreso.
Qed.

(** A page is progress, for the counters it returns when it returns and
    for those it was given when it raises. *)
Lemma main_pagina_progreso (page : Z) (s : Z * Z) (w : Mundo) :
  exists s',
    progreso commit_falla s w s'
      (snd (main_pagina lxml urljoin http_get insert_falla commit_falla ahora
              page s w))
    /\ (forall t,
          fst (main_pagina lxml urljoin http_get insert_falla commit_falla
                 ahora page s w) = Some t -> t = s').
Proof.
  rewrite main_pagina_run.
  destruct (url_catalogo urljoin page) as [url|].
  - destruct (http_get (reloj w) url) as [text|].
    + destruct (no_vacio (Some text)) as [html|].
      * cbv zeta. destruct (forallb (direcciones_unibles urljoin) _).
        -- eexists. split; [|now intros t [= <-]]. cbn [snd].
           eapply progreso_trans; [|apply para_cada_libros_progreso].
           apply progreso_mismo_almacen; cbn; solve [reflexivity | lia].
        -- exists s. split; [|intros t; discriminate].
           apply progreso_mismo_almacen; cbn; solve [reflexivity | lia].
      * exists s. split; [|now intros t [= <-]].
        apply progreso_mismo_almacen; cbn; solve [reflexivity | lia].
    + exists s. split; [|now intros t [= <-]].
      apply progreso_mismo_almacen; cbn; solve [reflexivity | lia].
  - exists s. split; [apply progreso_refl|intros t; discriminate].
Qed.

(** The loop of [main] over the pages is progress from the world in which
    it starts. *)
Lemma main_paginas_progreso (w : Mundo) :
  exists s',
    progreso commit_falla (0, 0) (mundo_inicial w) s'
      (snd (para_cada_o [1; 2; 3]
              (main_pagina lxml urljoin http_get insert_falla commit_falla
                 ahora)
              (0, 0) (mundo_inicial w)))
    /\ (forall t,
          fst (para_cada_o [1; 2; 3]
                 (main_pagina lxml urljoin http_get insert_falla commit_falla
                    ahora)
                 (0, 0) (mundo_inicial w)) = Some t -> t = s').
Proof.
  apply (para_cada_o_rel (progreso commit_falla)).
  - apply progreso_refl.
  - intros *. apply progreso_trans.
  - intros x t v _. apply main_pagina_progreso.
Qed.

(** What a run of [main] keeps, whether it returns or raises: the rows of
    the file are the first rows it leaves, and the order of the ids. *)
Lemma main_almacen (w : Mundo) :
  libros w `prefix_of`
    libros (snd (main lxml urljoin http_get insert_falla commit_falla ahora w))
  /\ (ids_en_orden w ->
      ids_en_orden
        (snd (main lxml urljoin http_get insert_falla commit_falla ahora w))).
Proof.
  rewrite main_run.
  destruct (main_paginas_progreso w) as (s' & (Hp & _ & _ & _ & _ & Hi & _) & _).
  assert (ids_en_orden w -> ids_en_curso (mundo_inicial w)) as H0.
  { intros H. apply ids_en_orden_curso; [reflexivity|exact H]. }
  destruct (para_cada_o _ _ _ (mundo_inicial w)) as [[[ti td]|] w2];
    cbn [snd] in *.
  - split; [exact Hp|]. intros H.
    apply ids_en_curso_orden in Hi; [exact Hi|exact (H0 H)].
  - split; [exact Hp|]. intros H. apply ids_en_curso_orden, Hi, H0, H.
Qed.


(** X2. When [main] returns, the last record it logs is the summary, and
    its numbers are bounded by what the run did: the first,
    [total_insertados], counts the INSERTs that were accepted together with
    their commit, so it is not negative and not above the number of rows the
    run added to the file, and it is exactly this number when no commit
    raises; a row whose commit raised and that a later commit stored is in
    the file and not in the count. The second, the count of details read,
    is not negative and not above the number of pauses of the run, one for
    each GET that returned. *)
Theorem main_resumen (w w' : Mundo) :
  main lxml urljoin http_get insert_falla commit_falla ahora w = (Some tt, w') ->
  exists ti td : Z,
    last (registro w') = Some (resumen ti td)
    /\ 0 <= ti <= Z.of_nat (length (libros w')) - Z.of_nat (length (libros w))
    /\ ((forall n, commit_falla n = false) ->
        Z.of_nat (length (libros w')) = Z.of_nat (length (libros w)) + ti)
    /\ 0 <= td <= Z.of_nat (pausas w') - Z.of_nat (pausas w).
Proof.
  rewrite main_run.
  destruct (main_paginas_progreso w)
    as (s' & (_ & _ & Hc & Hd & Hp & _ & Hf) & Hs).
  destruct (para_cada_o _ _ _ (mundo_inicial w)) as [[[ti td]|] w2];
    [|discriminate].
  intros [= <-]. specialize (Hs (ti, td) eq_refl). subst s'.
  cbn [fst snd] in *.
  exists ti, td. split_and!.
  - cbn [registro anotar con_registro]. apply last_snoc.
  - lia.
  - cbn [libros anotar con_registro sin_transaccion con_pendientes
         mundo_inicial con_sql] in *. lia.
  - intros Hcom. destruct (Hf Hcom eq_refl) as [_ E].
    cbn [libros anotar con_registro sin_transaccion con_pendientes
         mundo_inicial con_sql] in *. lia.
  - lia.
  - cbn [pausas anotar con_registro sin_transaccion con_pendientes
         mundo_inicial con_sql] in *. lia.
Qed.

Lemma antes_NoDup (l : list Fila) :
  StronglySorted antes l -> NoDup (map fila_id l).
Proof.
  induction 1 as [|f l Hl IH Hf]; [constructor|].
  cbn [map]. apply NoDup_cons. split; [|exact IH].
  intros Hin. apply list_elem_of_fmap in Hin as (g & Hg & Hgl).
  rewrite Forall_forall in Hf. specialize (Hf g Hgl). unfold antes in Hf. lia.
Qed.

(** X3. AUTOINCREMENT through a run. When the ids of the table grow
    strictly along it and none is above the sequence, the same holds after
    [main], whether it returns or raises; so the ids stay distinct, and
    every row the run adds has an id above the ids of all the rows that
    were there. *)
Theorem main_ids (w : Mundo) :
  ids_en_orden w ->
  ids_en_orden
    (snd (main lxml urljoin http_get insert_falla commit_falla ahora w))
  /\ NoDup (map fila_id
              (libros (snd (main lxml urljoin http_get insert_falla
                              commit_falla ahora w))))
  /\ (forall nuevas,
        libros (snd (main lxml urljoin http_get insert_falla commit_falla
                       ahora w))
        = libros w ++ nuevas ->
        forall f g, f ∈ libros w -> g ∈ nuevas -> fila_id f < fila_id g).
Proof.
  intros H. pose proof (proj2 (main_almacen w) H) as Hw. split_and!.
  - exact Hw.
  - apply antes_NoDup, Hw.
  - intros nuevas E f g Hf Hg. destruct Hw as [Hs _]. rewrite E in Hs.
    exact (StronglySorted_app_1_elem_of antes _ _ f g Hs Hf Hg).
Qed.





(** X14. An address [urljoin] rejects ends the run. When the first
    listing page comes back with a body in which a unit has an image or link
    address that [urljoin] rejects, [main] raises: no book of the page is
    looked up or inserted, the later pages are not asked for, the
    connection is not closed and no summary is logged. The world is the one
    the GET of the page left, with the price warnings of the units before
    the rejected one. *)
Theorem main_direccion_rechazada (w : Mundo) (html : string) :
  http_get (reloj w) BASE_URL = Some html ->
  html <> "" ->
  Exists (fun a => direcciones_unibles urljoin a = false)
    (select article_product_pod (BeautifulSoup lxml html)) ->
  let r := main lxml urljoin http_get insert_falla commit_falla ahora w in
  r = (None,
       con_registro
         (fun l =>
            l ++ (antes_del_fallo urljoin
                    (select article_product_pod (BeautifulSoup lxml html))
                    ≫= fun a => avisos_de_precio (texto_precio a)))
         (tras_get BASE_URL (mundo_inicial w)))
  /\ libros (snd r) = libros w
  /\ sql (snd r) = sql w ++ [CreateTableIfNotExists]
  /\ reloj (snd r) = S (reloj w)
  /\ Forall (fun e => nivel e <> ERROR) (drop (length (registro w)) (registro (snd r))).
Proof.
  intros Hget Hne Hex r.
  assert (no_vacio (Some html) = Some html) as Hh
    by (apply no_vacio_Some; split; [reflexivity|exact Hne]).
  assert (forallb (direcciones_unibles urljoin)
            (select article_product_pod (BeautifulSoup lxml html)) = false)
    as Hf.
  { destruct (forallb _ _) eqn:E; [|reflexivity].
    apply forallb_Forall in E. rewrite Forall_forall in E.
    apply Exists_exists in Hex as (a & Ha & Hb).
    specialize (E a Ha). cbn beta in E. congruence. }
  assert (r = (None,
               con_registro
                 (fun l =>
                    l ++ (antes_del_fallo urljoin
                            (select article_product_pod
                               (BeautifulSoup lxml html))
                            ≫= fun a => avisos_de_precio (texto_precio a)))
                 (tras_get BASE_URL (mundo_inicial w)))) as Hr.
  { subst r. rewrite main_run. cbn [para_cada_o]. unfold bind at 1.
    rewrite main_pagina_run.
    change (url_catalogo urljoin 1) with (Some BASE_URL). cbv beta iota.
    change (reloj (mundo_inicial w)) with (reloj w).
    rewrite Hget, Hh. cbv zeta. rewrite Hf. reflexivity. }
  split; [exact Hr|]. rewrite Hr. cbn [snd].
  split_and!; try reflexivity.
  cbn [registro con_registro tras_get con_pausas con_reloj anotar
       mundo_inicial con_sql sin_transaccion con_pendientes].
  rewrite <- !app_assoc, drop_app_length.
  repeat (apply Forall_cons; split; [discriminate|]).
  apply Forall_bind, Forall_forall. intros a _. unfold compose.
  unfold avisos_de_precio. destruct (no_vacio (texto_precio a)); [|constructor].
  destruct (String.eqb _ ""); [constructor|].
  destruct (py_float _); repeat constructor. discriminate.
Qed.

End Recorrido.

(** ** The detail extractor: UPC and description *)

Lemma upc_de_filas_primero (rows : list Tag) :
  upc_de_filas rows
  = match list_find (fun row => es_fila_upc row = true) rows with
    | Some (_, row) => get_text_strip <$> find "td" row
    | None => None
    end.
Proof.
  induction rows as [|row rows IH]; [reflexivity|].
  cbn [upc_de_filas list_find]. case_decide as H; unfold es_fila_upc in H.
  - destruct (find "th" row) as [th|]; [|discriminate].
    destruct (find "td" row) as [td|]; [|discriminate].
    now rewrite H.
  - assert (match find "th" row, find "td" row with
            | Some th, Some td =>
                if String.eqb (get_text_strip th) "UPC"
                then Some (get_text_strip td)
                else upc_de_filas rows
            | _, _ => upc_de_filas rows
            end = upc_de_filas rows) as ->.
    { destruct (find "th" row) as [th|]; [|reflexivity].
      destruct (find "td" row) as [td|]; [|reflexivity].
      destruct (String.eqb (get_text_strip th) "UPC"); [|reflexivity].
      now contradict H. }
    rewrite IH. destruct (list_find _ rows) as [[i x]|]; reflexivity.
Qed.

(** X7. The UPC of a detail page is read in the first
    [table.table.table-striped] of the page, from the first of its rows
    that has a [th] and a [td] and whose [th] text, stripped, is exactly
    UPC: it is the stripped text of the [td] of this row. Rows without
    [th] or without [td] are passed over. Without such a table or such a
    row the UPC is [None]. *)
Theorem parsear_detalle_upc (lxml : string -> list nodo) (html : string) :
  let u := det_upc (parsear_detalle lxml html) in
  match select_one table_table_table_striped (BeautifulSoup lxml html) with
  | None => u = None
  | Some tabla =>
      match list_find (fun row => es_fila_upc row = true) (select tr tabla) with
      | Some (_, row) =>
          exists th td,
            find "th" row = Some th /\ find "td" row = Some td
            /\ get_text_strip th = "UPC" /\ u = Some (get_text_strip td)
      | None => u = None
      end
  end.
Proof.
  intros u. subst u. unfold parsear_detalle. cbn [det_upc].
  destruct (select_one table_table_table_striped (BeautifulSoup lxml html))
    as [tabla|]; [|reflexivity].
  rewrite upc_de_filas_primero.
  destruct (list_find _ (select tr tabla)) as [[i row]|] eqn:E; [|reflexivity].
  apply list_find_Some in E as (_ & Hrow & _). unfold es_fila_upc in Hrow.
  destruct (find "th" row) as [th|]; [|discriminate].
  destruct (find "td" row) as [td|]; [|discriminate].
  exists th, td. apply String.eqb_eq in Hrow. split_and!; reflexivity || exact Hrow.
Qed.

Lemma find_id_en_Some (v : string) (l : list Tag) (h : Tag) (sig : list Tag) :
  find_id_en v l = Some (h, sig)
  <-> exists pre,
        l = pre ++ h :: sig
        /\ Forall (fun u => get u "id" <> Some v) pre
        /\ get h "id" = Some v.
Proof.
  revert h sig. induction l as [|x l IH]; intros h sig; cbn [find_id_en].
  - split; [discriminate|]. intros (pre & E & _). now destruct pre.
  - case_bool_decide as Hx.
    + split.
      * intros [= <- <-]. exists []. split_and!; [reflexivity|constructor|exact Hx].
      * intros (pre & E & Hpre & Hh). destruct pre as [|y pre].
        -- now injection E as <- <-.
        -- injection E as <- _. apply Forall_cons in Hpre as [Hy _].
           contradiction.
    + rewrite IH. split.
      * intros (pre & -> & Hpre & Hh). exists (x :: pre).
        split_and!; [reflexivity|now constructor|exact Hh].
      * intros (pre & E & Hpre & Hh). destruct pre as [|y pre].
        -- injection E as -> _. contradiction.
        -- injection E as <- ->. apply Forall_cons in Hpre as [_ Hpre].
           exists pre. split_and!; [reflexivity|exact Hpre|exact Hh].
Qed.

Lemma find_next_Some (nm : string) (sig : list Tag) (p : Tag) :
  find_next nm sig = Some p
  <-> exists pre post,
        sig = pre ++ p :: post
        /\ Forall (fun u => tiene_name nm u = false) pre
        /\ tiene_name nm p = true.
Proof.
  unfold find_next. revert p. induction sig as [|x sig IH]; intros p.
  - cbn. split; [discriminate|]. intros (pre & post & E & _). now destruct pre.
  - rewrite filter_cons. destruct (tiene_name nm x) eqn:Hx.
    + rewrite decide_True by reflexivity. cbn [head]. split.
      * intros [= <-]. exists [], sig.
        split_and!; [reflexivity|constructor|exact Hx].
      * intros (pre & post & E & Hpre & Hp). destruct pre as [|y pre].
        -- now injection E as <- _.
        -- injection E as <- _. apply Forall_cons in Hpre as [Hy _].
           congruence.
    + rewrite decide_False by discriminate. rewrite IH. split.
      * intros (pre & post & -> & Hpre & Hp). exists (x :: pre), post.
        split_and!; [reflexivity|now constructor|exact Hp].
      * intros (pre & post & E & Hpre & Hp). destruct pre as [|y pre].
        -- injection E as -> _. congruence.
        -- injection E as <- ->. apply Forall_cons in Hpre as [_ Hpre].
           exists pre, post. split_and!; [reflexivity|exact Hpre|exact Hp].
Qed.

(** X8. The description of a detail page is the stripped text of the first
    [p] that comes, in document order, after the first node whose [id] is
    product_description, wherever in the tree this [p] is; there is a
    description exactly when the page has such a node and a [p] after
    it. *)
Theorem parsear_detalle_descripcion
    (lxml : string -> list nodo) (html : string) (d : string) :
  det_descripcion (parsear_detalle lxml html) = Some d
  <-> exists pre h entre p post,
        descendants [] (este (BeautifulSoup lxml html))
        = pre ++ h :: entre ++ p :: post
        /\ Forall (fun u => get u "id" <> Some "product_description") pre
        /\ get h "id" = Some "product_description"
        /\ Forall (fun u => tiene_name "p" u = false) entre
        /\ tiene_name "p" p = true
        /\ d = get_text_strip p.
Proof.
  unfold parsear_detalle. cbn [det_descripcion]. unfold find_id.
  cbn [padres BeautifulSoup documento].
  set (l := descendants [] _). split.
  - destruct (find_id_en "product_description" l) as [[h sig]|] eqn:E;
      [|discriminate].
    destruct (find_next "p" sig) as [p|] eqn:Ep; [|discriminate].
    intros [= <-]. apply find_id_en_Some in E as (pre & E & Hpre & Hh).
    apply find_next_Some in Ep as (entre & post & Es & Hentre & Hp).
    exists pre, h, entre, p, post. subst sig.
    split_and!; try assumption; reflexivity.
  - intros (pre & h & entre & p & post & E & Hpre & Hh & Hentre & Hp & ->).
    assert (find_id_en "product_description" l = Some (h, entre ++ p :: post))
      as -> by (apply find_id_en_Some; eauto).
    assert (find_next "p" (entre ++ p :: post) = Some p) as ->
      by (apply find_next_Some; eauto).
    reflexivity.
Qed.

(** ** The listing extractor: what it logs *)

Lemma avisos_de_precio_cases (o : option string) :
  avisos_de_precio o = []
  \/ exists p, o = Some p /\ avisos_de_precio o = [aviso_precio p]
               /\ py_float (re_sub_no_numerico p) = None.
Proof.
  unfold avisos_de_precio. destruct (no_vacio o) as [p|] eqn:V; [|now left].
  apply no_vacio_Some in V as [-> _].
  destruct (String.eqb (re_sub_no_numerico p) ""); [now left|].
  destruct (py_float (re_sub_no_numerico p)) eqn:F; [now left|].
  right. exists p. split_and!; [reflexivity|reflexivity|exact F].
Qed.

Lemma antes_del_fallo_prefix
    (urljoin : string -> string -> option string) (l : list Tag) :
  antes_del_fallo urljoin l `prefix_of` l.
Proof.
  induction l as [|a l IH]; [reflexivity|]. cbn [antes_del_fallo].
  destruct (direcciones_unibles urljoin a).
  - now apply prefix_cons.
  - apply prefix_nil.
Qed.

(** X10. Parsing a listing page changes nothing but the log, whether the
    call returns or raises: the world it leaves is the world it found with
    one warning added for each unit the loop got through whose price text
    [float] rejects, in document order. The loop gets through the units
    before the first one with an address [urljoin] rejects, and through all
    of them when the call returns. These are warnings about a price, there
    is at most one for a unit, and the unit of each has no price in its
    dictionary. *)
Theorem parsear_libros_catalogo_solo_avisa
    (lxml : string -> list nodo) (urljoin : string -> string -> option string)
    (html : string) (w : Mundo) :
  let units := select article_product_pod (BeautifulSoup lxml html) in
  let vistas := antes_del_fallo urljoin units in
  let avisos := vistas ≫= fun a => avisos_de_precio (texto_precio a) in
  snd (parsear_libros_catalogo lxml urljoin html w)
  = con_registro (fun r => r ++ avisos) w
  /\ vistas `prefix_of` units
  /\ Forall (fun e => exists p, e = aviso_precio p) avisos
  /\ (length avisos <= length vistas)%nat
  /\ (forall out,
        fst (parsear_libros_catalogo lxml urljoin html w) = Some out ->
        vistas = units
        /\ (forall i a,
              units !! i = Some a ->
              avisos_de_precio (texto_precio a) <> [] ->
              exists libro, out !! i = Some libro /\ precio libro = None)).
Proof.
  intros units vistas avisos. rewrite parsear_libros_catalogo_run. fold units.
  cbn [fst snd]. split_and!.
  - reflexivity.
  - apply antes_del_fallo_prefix.
  - subst avisos. apply Forall_bind, Forall_forall. intros a _.
    unfold compose.
    destruct (avisos_de_precio_cases (texto_precio a)) as [->|(p & _ & -> & _)].
    + constructor.
    + repeat constructor. now exists p.
  - subst avisos. induction vistas as [|a l IH]; [reflexivity|].
    rewrite bind_cons, length_app. cbn [length].
    destruct (avisos_de_precio_cases (texto_precio a)) as [->|(p & _ & -> & _)];
      cbn [length]; lia.
  - intros out Hout.
    destruct (forallb (direcciones_unibles urljoin) units) eqn:E;
      [|discriminate].
    injection Hout as <-. split; [now apply antes_del_fallo_todas|].
    intros i a Hi Ha. exists (dict_de urljoin a). split.
    + now rewrite list_lookup_fmap, Hi.
    + cbn [precio dict_de].
      destruct (avisos_de_precio_cases (texto_precio a))
        as [E'|(p & Ht & _ & Hf)]; [contradiction|].
      rewrite Ht. exact Hf.
Qed.

(** ** The price normaliser: what it ignores *)

Lemma re_sub_app (a b : string) :
  re_sub_no_numerico (a +:+ b)
  = re_sub_no_numerico a +:+ re_sub_no_numerico b.
Proof.
  induction a as [|c a IH]; [reflexivity|].
  change (String c a +:+ b) with (String c (a +:+ b)).
  cbn [re_sub_no_numerico]. rewrite IH.
  destruct (es_digito c || es_punto c); reflexivity.
Qed.

Lemma re_sub_sin_numericos (a : string) :
  alguno es_numerico a = false -> re_sub_no_numerico a = "".
Proof.
  induction a as [|c a IH]; [reflexivity|]. cbn. unfold es_numerico at 1.
  destruct (es_digito c || es_punto c); [discriminate|exact IH].
Qed.

Lemma append_vacio (s : string) : s +:+ "" = s.
Proof.
  induction s as [|c s IH]; [reflexivity|].
  change (String c s +:+ "") with (String c (s +:+ "")). now rewrite IH.
Qed.

(** X11. What stands around the number does not count: a prefix and a
    suffix without digit and without point, a currency sign, a minus sign or
    a unit, leave the value [normalizar_precio] returns as it is without
    them. So the sign of a price is lost. *)
Theorem normalizar_precio_afijos (a s b : string) (w : Mundo) :
  alguno es_numerico a = false ->
  alguno es_numerico b = false ->
  fst (normalizar_precio (Some (a +:+ s +:+ b)) w)
  = fst (normalizar_precio (Some s) w).
Proof.
  intros Ha Hb. rewrite !normalizar_precio_valor. cbn [mbind option_bind].
  rewrite !re_sub_app, (re_sub_sin_numericos a Ha), (re_sub_sin_numericos b Hb).
  now rewrite append_vacio.
Qed.

Lemma normalizar_precio_afijos_witness :
  fst (normalizar_precio (Some ("-£" +:+ "51.77" +:+ " GBP")) mundo_vacio)
  = fst (normalizar_precio (Some "51.77") mundo_vacio).
Proof. apply normalizar_precio_afijos; reflexivity. Defined.

(** ** The export: order and repetition *)

#[global]
Instance por_id_trans : Transitive por_id.
Proof. intros f g h. unfold por_id. lia. Qed.

Lemma antes_por_id (l : list Fila) :
  StronglySorted antes l -> StronglySorted por_id l.
Proof.
  induction 1 as [|f l Hl IH Hf]; constructor; [exact IH|].
  eapply Forall_impl; [exact Hf|]. intros g. unfold antes, por_id. lia.
Qed.

(** In a table whose ids grow strictly a row is known by its id. *)
Lemma antes_mismo_id (l : list Fila) (f g : Fila) :
  StronglySorted antes l -> f ∈ l -> g ∈ l -> fila_id f = fila_id g -> f = g.
Proof.
  induction 1 as [|x l Hl IH Hx]; intros Hf Hg E.
  - now apply elem_of_nil in Hf.
  - rewrite Forall_forall in Hx. unfold antes in Hx.
    apply elem_of_cons in Hf as [->|Hf]; apply elem_of_cons in Hg as [->|Hg].
    + reflexivity.
    + specialize (Hx g Hg). lia.
    + specialize (Hx f Hf). lia.
    + now apply IH.
Qed.

Lemma merge_sort_en_orden (l : list Fila) :
  StronglySorted antes l -> merge_sort por_id l = l.
Proof.
  intros Hl. apply (StronglySorted_unique_strong por_id).
  - intros f g Hf Hg H1 H2. apply (antes_mismo_id l f g Hl).
    + now rewrite <- (merge_sort_Permutation por_id l).
    + exact Hg.
    + unfold por_id in *. lia.
  - apply StronglySorted_merge_sort; apply _.
  - now apply antes_por_id.
  - apply merge_sort_Permutation.
Qed.

Section Exportacion_mas.

Variable str_float : Q -> string.
Variable repr_tuple : list Celda -> string.

(** The rows the export reads and the text it writes for a table. *)
Lemma exportar_primeros_10_run (output_csv : string) (w : Mundo) :
  exportar_primeros_10 str_float repr_tuple output_csv w
  = (tt,
     con_consola (fun l => l ++ [String LF "Exportado a " +:+ output_csv])
       (con_archivos
          (insert output_csv (texto_csv str_float (libros w)))
          (con_consola
             (fun l => l ++ map repr_tuple (filas_csv (libros w)))
             (con_consola (fun l => l ++ ["Primeros 10 registros:"])
                (con_sql (fun l => l ++ [SelectPrimeros10]) w))))).
Proof.
  unfold exportar_primeros_10, texto_csv, filas_csv.
  unfold bind at 1, modificar at 1. unfold bind at 1, leer at 1.
  unfold bind at 1, print at 1, modificar at 1. unfold bind at 1.
  cbn [libros con_sql con_consola].
  rewrite print_rows. unfold bind at 1, modificar at 1.
  reflexivity.
Qed.

(** X4. In a table whose ids grow strictly along it, as the crawl leaves
    them, the export reads the first ten rows in insertion order: the file
    holds the header and then the first ten rows of the table as they
    stand. *)
Theorem exportar_orden_insercion (output_csv : string) (w : Mundo) :
  StronglySorted antes (libros w) ->
  primeros_10 (libros w) = take 10 (libros w)
  /\ archivos
       (snd (exportar_primeros_10 str_float repr_tuple output_csv w))
       !! output_csv
     = Some (writerow str_float (map CTexto columnas_select)
               +:+ foldr String.append EmptyString
                     (map (fun f =>
                             writerow str_float
                               (map (fun c => columna c f) columnas_select))
                        (take 10 (libros w)))).
Proof.
  intros H.
  assert (primeros_10 (libros w) = take 10 (libros w)) as E
    by (unfold primeros_10; now rewrite merge_sort_en_orden).
  split; [exact E|].
  rewrite exportar_primeros_10_run.
  cbn [snd archivos con_consola con_archivos].
  rewrite lookup_insert_eq. unfold texto_csv, filas_csv.
  now rewrite E, map_map.
Qed.

(** X5. The export can be repeated. Its file depends on the table alone:
    what the file held before is overwritten, a second export leaves the
    same files as the first, the other files and the table are not touched,
    and the number of data rows is the smaller of ten and the number of
    rows of the table. *)
Theorem exportar_repetible (output_csv otro : string) (w w0 : Mundo) :
  let w1 := snd (exportar_primeros_10 str_float repr_tuple output_csv w) in
  let w2 := snd (exportar_primeros_10 str_float repr_tuple output_csv w1) in
  archivos w2 = archivos w1
  /\ libros w2 = libros w
  /\ (otro <> output_csv -> archivos w1 !! otro = archivos w !! otro)
  /\ (libros w0 = libros w ->
      archivos
        (snd (exportar_primeros_10 str_float repr_tuple output_csv w0))
        !! output_csv
      = archivos w1 !! output_csv)
  /\ length (filas_csv (libros w)) = Nat.min 10 (length (libros w)).
Proof.
  intros w1 w2. subst w2 w1. rewrite !exportar_primeros_10_run.
  cbn [snd archivos libros con_consola con_archivos con_sql].
  split_and!.
  - now rewrite insert_insert_eq.
  - reflexivity.
  - intros Hne. now rewrite lookup_insert_ne.
  - intros ->. now rewrite !lookup_insert_eq.
  - unfold filas_csv, primeros_10. rewrite length_map, length_take.
    now rewrite (Permutation_length (merge_sort_Permutation por_id (libros w))).
Qed.

End Exportacion_mas.

(** ** Crawling twice *)

(** A loop keeps what each run of its body on one of its elements keeps. *)
Lemma para_cada_inv {A S} (P : Mundo -> Prop) (cuerpo : A -> S -> M S)
    (l : list A) :
  (forall x s w, x ∈ l -> P w -> P (snd (cuerpo x s w))) ->
  forall s w, P w -> P (snd (para_cada l cuerpo s w)).
Proof.
  induction l as [|x l IH]; intros Hc s w Hw; [exact Hw|].
  cbn [para_cada]. unfold bind.
  pose proof (Hc x s w (list_elem_of_here x l) Hw) as Hx.
  destruct (cuerpo x s w) as [s' w']. apply IH; [|exact Hx].
  intros y t v Hy. apply Hc. now apply list_elem_of_further.
Qed.

Lemma para_cada_o_inv {A S} (P : Mundo -> Prop)
    (cuerpo : A -> S -> M (option S)) (l : list A) :
  (forall x s w, x ∈ l -> P w -> P (snd (cuerpo x s w))) ->
  forall s w, P w -> P (snd (para_cada_o l cuerpo s w)).
Proof.
  induction l as [|x l IH]; intros Hc s w Hw; [exact Hw|].
  cbn [para_cada_o]. unfold bind.
  pose proof (Hc x s w (list_elem_of_here x l) Hw) as Hx.
  destruct (cuerpo x s w) as [[s'|] w']; [|exact Hx].
  apply IH; [|exact Hx].
  intros y t v Hy. apply Hc. now apply list_elem_of_further.
Qed.

(** After the body of a loop has run for [x], [Q x] holds, and no later run
    of the body undoes it: after the loop [Q] holds for every element. For
    a body that may raise, this is so when it returns on every element. *)
Lemma para_cada_post {A S} (Q : A -> Mundo -> Prop) (cuerpo : A -> S -> M S)
    (l : list A) :
  (forall x s w, x ∈ l -> Q x (snd (cuerpo x s w))) ->
  (forall x y s w, Q x w -> Q x (snd (cuerpo y s w))) ->
  forall s w x, x ∈ l -> Q x (snd (para_cada l cuerpo s w)).
Proof.
  intros Hpost Hmono. induction l as [|y l IH]; intros s w x Hx.
  - now apply elem_of_nil in Hx.
  - cbn [para_cada]. unfold bind.
    pose proof (Hpost y s w (list_elem_of_here y l)) as Hy.
    destruct (cuerpo y s w) as [s' w']. cbn [snd] in Hy.
    apply elem_of_cons in Hx as [->|Hx].
    + apply (para_cada_conserva (Q y)); [|exact Hy].
      intros z t v. apply Hmono.
    + apply IH; [|exact Hx]. intros z t v Hz. apply Hpost.
      now apply list_elem_of_further.
Qed.

Lemma para_cada_o_post {A S} (Q : A -> Mundo -> Prop)
    (cuerpo : A -> S -> M (option S)) (l : list A) :
  (forall x s w, x ∈ l ->
     is_Some (fst (cuerpo x s w)) /\ Q x (snd (cuerpo x s w))) ->
  (forall x y s w, Q x w -> Q x (snd (cuerpo y s w))) ->
  forall s w x, x ∈ l -> Q x (snd (para_cada_o l cuerpo s w)).
Proof.
  intros Hpost Hmono. induction l as [|y l IH]; intros s w x Hx.
  - now apply elem_of_nil in Hx.
  - cbn [para_cada_o]. unfold bind.
    destruct (Hpost y s w (list_elem_of_here y l)) as [[t Ht] Hy].
    destruct (cuerpo y s w) as [r w']. cbn [fst snd] in Ht, Hy. subst r.
    apply elem_of_cons in Hx as [->|Hx].
    + apply (para_cada_o_conserva (Q y)); [|exact Hy].
      intros z t' v. apply Hmono.
    + apply IH; [|exact Hx]. intros z t' v Hz. apply Hpost.
      now apply list_elem_of_further.
Qed.

Lemma a_la_vista_prefix (u : string) (w w' : Mundo) :
  vista w `prefix_of` vista w' -> a_la_vista u w -> a_la_vista u w'.
Proof.
  unfold a_la_vista. intros [k ->] H. apply Exists_app. now left.
Qed.

Section Dos_veces.

Variable lxml : string -> list nodo.
Variable urljoin : string -> string -> option string.
Variable http_get : nat -> string -> option string.
Variable insert_falla : nat -> bool.
Variable commit_falla : nat -> bool.
Variable ahora : nat -> string.

(** The loop body for a book whose detail page gives a UPC: the detail is
    read, and the commit of the completed book decides the rest. *)
Lemma main_libro_detalle_ok (libro : Libro) (ti td : Z) (w : Mundo) (u : string) :
  sitio_estable http_get ->
  upc_en_sitio lxml http_get libro = Some u ->
  exists completo w1,
    no_vacio (upc completo) = Some u
    /\ libros w1 = libros w
    /\ pendientes w1 = pendientes w
    /\ main_libro lxml http_get insert_falla commit_falla ahora libro (ti, td) w
       = (fst (main_commit insert_falla commit_falla ahora completo ti w1),
          td + 1,
          snd (main_commit insert_falla commit_falla ahora completo ti w1)).
Proof.
  intros Hest Hu. unfold upc_en_sitio in Hu.
  destruct (no_vacio (detail_url libro)) as [url|] eqn:Eurl; [|discriminate].
  destruct (no_vacio (http_get 0%nat url)) as [html|] eqn:Eget; [|discriminate].
  exists (asignar_detalle libro (det_descripcion (parsear_detalle lxml html))
            (det_upc (parsear_detalle lxml html))
            (det_categoria (parsear_detalle lxml html))),
         (tras_get url w).
  split_and!; [exact Hu|reflexivity|reflexivity|].
  rewrite main_libro_run, main_detalle_run, Eurl, (Hest (reloj w) url).
  destruct (http_get 0%nat url) as [text|]; [|discriminate].
  rewrite Eget.
  destruct (main_commit _ _ _ _ ti (tras_get url w)) as [ti' w2]. reflexivity.
Qed.

(** A book whose UPC the connection sees leaves the store as it is. *)
Lemma main_libro_repetido (libro : Libro) (s : Z * Z) (w : Mundo) (u : string) :
  sitio_estable http_get ->
  upc_en_sitio lxml http_get libro = Some u ->
  a_la_vista u w ->
  libros (snd (main_libro lxml http_get insert_falla commit_falla ahora
                 libro s w))
  = libros w
  /\ pendientes (snd (main_libro lxml http_get insert_falla commit_falla ahora
                        libro s w))
     = pendientes w.
Proof.
  intros Hest Hu Hen. destruct s as [ti td].
  destruct (main_libro_detalle_ok libro ti td w u Hest Hu)
    as (completo & w1 & Hc & Hl & Hp & ->).
  cbn [snd]. unfold a_la_vista, vista in Hen. rewrite <- Hl, <- Hp in Hen.
  rewrite (main_commit_existente insert_falla commit_falla ahora completo ti
             w1 u Hc Hen).
  split; assumption.
Qed.

(** With INSERTs that are accepted, the connection sees the UPC of a
    book after the loop body. *)
Lemma main_libro_deja_upc (libro : Libro) (s : Z * Z) (w : Mundo) (u : string) :
  sitio_estable http_get ->
  (forall n, insert_falla n = false) ->
  upc_en_sitio lxml http_get libro = Some u ->
  a_la_vista u
    (snd (main_libro lxml http_get insert_falla commit_falla ahora libro s w)).
Proof.
  intros Hest Hok Hu. destruct s as [ti td].
  destruct (main_libro_detalle_ok libro ti td w u Hest Hu)
    as (completo & w1 & Hc & Hl & _ & ->).
  cbn [snd]. unfold a_la_vista.
  destruct (decide (Exists (fun f => fila_upc f = Some u) (vista w1)))
    as [Hex|Hex].
  - rewrite (main_commit_existente insert_falla commit_falla ahora completo ti
               w1 u Hc Hex).
    exact Hex.
  - rewrite (main_commit_nuevo insert_falla commit_falla ahora completo ti
               w1 u Hc Hex).
    rewrite tras_intento_vista. unfold vista_tras_insert. rewrite Hok.
    apply Exists_app. right. apply Exists_cons_hd.
    cbn. apply no_vacio_Some in Hc as [Hc _]. exact Hc.
Qed.

(** The books [main_pagina] processes are those of the page of the site,
    and it returns. *)
Lemma main_pagina_estable (page : Z) (s : Z * Z) (w : Mundo) (l : list Libro) :
  sitio_estable http_get ->
  libros_en_sitio lxml urljoin http_get page = Some l ->
  exists w1,
    libros w1 = libros w /\ pendientes w1 = pendientes w
    /\ main_pagina lxml urljoin http_get insert_falla commit_falla ahora
         page s w
       = (Some (fst (para_cada l
                       (main_libro lxml http_get insert_falla commit_falla
                          ahora) s w1)),
          snd (para_cada l
                 (main_libro lxml http_get insert_falla commit_falla ahora)
                 s w1)).
Proof.
  intros Hest. rewrite main_pagina_run. unfold libros_en_sitio.
  destruct (url_catalogo urljoin page) as [url|]; [|discriminate].
  cbn [mbind option_bind]. rewrite (Hest (reloj w) url).
  destruct (http_get 0%nat url) as [text|].
  - destruct (no_vacio (Some text)) as [html|].
    + rewrite parsear_libros_catalogo_run. cbn [fst]. cbv zeta.
      destruct (forallb (direcciones_unibles urljoin) _); [|discriminate].
      intros [= <-]. eexists. split_and!; [| |reflexivity]; reflexivity.
    + cbn [no_vacio]. intros [= <-].
      eexists. split_and!; [| |reflexivity]; reflexivity.
  - cbn [no_vacio]. intros [= <-].
    eexists. split_and!; [| |reflexivity]; reflexivity.
Qed.

(** X13. Crawling twice a site that does not change. When every address
    gets the same answer at every call, [urljoin] accepts the addresses of
    the three listing pages and those in them, every listed book has a
    detail page with a UPC that is not empty, and the store accepts every
    INSERT and every commit, then after a run of [main] the UPC of every
    listed book is in the table, and a second run adds no row. [sitio]
    gives the books of each listing page. *)
Theorem main_dos_veces (w : Mundo) (sitio : Z -> list Libro) :
  sitio_estable http_get ->
  (forall page,
      page ∈ [1; 2; 3] ->
      libros_en_sitio lxml urljoin http_get page = Some (sitio page)) ->
  (forall page libro,
      page ∈ [1; 2; 3] ->
      libro ∈ sitio page ->
      is_Some (upc_en_sitio lxml http_get libro)) ->
  (forall n, insert_falla n = false) ->
  (forall n, commit_falla n = false) ->
  let w1 :=
    snd (main lxml urljoin http_get insert_falla commit_falla ahora w) in
  (forall page libro u,
      page ∈ [1; 2; 3] ->
      libro ∈ sitio page ->
      upc_en_sitio lxml http_get libro = Some u ->
      en_tabla u w1)
  /\ libros (snd (main lxml urljoin http_get insert_falla commit_falla
                    ahora w1))
     = libros w1.
Proof.
  intros Hest Hsitio Hupcs Hok Hcom w1.
  assert (forall page libro u,
             page ∈ [1; 2; 3] ->
             libro ∈ sitio page ->
             upc_en_sitio lxml http_get libro = Some u ->
             en_tabla u w1) as Hcub.
  { intros page libro u Hpage Hlibro Hu. subst w1. rewrite main_run.
    destruct (main_paginas_progreso lxml urljoin http_get insert_falla
                commit_falla ahora w)
      as (s' & (_ & _ & _ & _ & _ & _ & Hf) & _).
    destruct (Hf Hcom eq_refl) as [Hpend _].
    assert (a_la_vista u
              (snd (para_cada_o [1; 2; 3]
                      (main_pagina lxml urljoin http_get insert_falla
                         commit_falla ahora)
                      (0, 0) (mundo_inicial w)))) as Hv.
    { revert libro u Hlibro Hu.
      apply (para_cada_o_post
               (fun page v =>
                  forall libro u,
                    libro ∈ sitio page ->
                    upc_en_sitio lxml http_get libro = Some u ->
                    a_la_vista u v)
               (main_pagina lxml urljoin http_get insert_falla commit_falla
                  ahora)
               [1; 2; 3]); [| |exact Hpage].
      - intros x s v Hx.
        destruct (main_pagina_estable x s v (sitio x) Hest (Hsitio x Hx))
          as (v1 & _ & _ & ->).
        cbn [fst snd]. split; [eauto|]. intros libro u Hlibro Hu.
        revert u Hu.
        apply (para_cada_post
                 (fun libro v =>
                    forall u, upc_en_sitio lxml http_get libro = Some u ->
                              a_la_vista u v)
                 (main_libro lxml http_get insert_falla commit_falla ahora)
                 (sitio x)); [| |exact Hlibro].
        + intros y t v' _ u Hu. now apply main_libro_deja_upc.
        + intros y z t v' Hy u Hu.
          eapply a_la_vista_prefix; [|now apply Hy].
          apply (main_libro_progreso lxml http_get insert_falla commit_falla
                   ahora z t v').
      - intros x y s v Hx libro u Hlibro Hu.
        eapply a_la_vista_prefix; [|now apply (Hx libro u)].
        destruct (main_pagina_progreso lxml urljoin http_get insert_falla
                    commit_falla ahora y s v) as (s2 & H2 & _).
        apply H2. }
    unfold a_la_vista, vista in Hv. rewrite Hpend, app_nil_r in Hv.
    destruct (para_cada_o _ _ _ (mundo_inicial w)) as [[[ti td]|] w2];
      exact Hv. }
  split; [exact Hcub|].
  rewrite (main_run lxml urljoin http_get insert_falla commit_falla ahora w1).
  assert (libros (snd (para_cada_o [1; 2; 3]
                         (main_pagina lxml urljoin http_get insert_falla
                            commit_falla ahora)
                         (0, 0) (mundo_inicial w1))) = libros w1
          /\ pendientes (snd (para_cada_o [1; 2; 3]
                                (main_pagina lxml urljoin http_get insert_falla
                                   commit_falla ahora)
                                (0, 0) (mundo_inicial w1))) = []) as [Hl _].
  { apply (para_cada_o_inv
             (fun v => libros v = libros w1 /\ pendientes v = [])
             (main_pagina lxml urljoin http_get insert_falla commit_falla ahora)
             [1; 2; 3]); [|split; reflexivity].
    intros page s v Hpage [Hv Hp].
    destruct (main_pagina_estable page s v (sitio page) Hest (Hsitio page Hpage))
      as (v1 & Hv1 & Hp1 & ->).
    cbn [snd].
    apply (para_cada_inv
             (fun v => libros v = libros w1 /\ pendientes v = [])
             (main_libro lxml http_get insert_falla commit_falla ahora)
             (sitio page)); [|split; congruence].
    intros libro t v' Hlibro [Hv' Hp'].
    destruct (Hupcs page libro Hpage Hlibro) as [u Hu].
    destruct (main_libro_repetido libro t v' u Hest Hu) as [E1 E2].
    - unfold a_la_vista, vista. rewrite Hv', Hp', app_nil_r.
      exact (Hcub page libro u Hpage Hlibro Hu).
    - split; congruence. }
  destruct (para_cada_o _ _ _ (mundo_inicial w1)) as [[[ti td]|] w2];
    exact Hl.
Qed.

End Dos_veces.

(** ** Runs on the small site *)

(** The crawl of the small site stores its two books, with their UPCs, and
    reports 2 books and 2 details. *)
Example main_sitio :
  map (fun f => (fila_id f, fila_titulo f, fila_upc f, fila_categoria f))
    (libros mundo_tras_sitio)
  = [ (1, "A Light in the Attic", Some "a897fe39b1053632", Some "Poetry");
      (2, "Tipping the Velvet", Some "90fa61229261140a", Some "Poetry") ]
  /\ last (registro mundo_tras_sitio) = Some (resumen 2 2).
Proof. split; vm_compute; reflexivity. Qed.

(** The same crawl when the commit of the first INSERT, external call 2,
    raises and the others are accepted: the first row is pending until the
    commit of the second stores both, and the summary counts one book. *)
Example main_sitio_commit_rezagado :
  map (fun f => (fila_id f, fila_titulo f))
    (libros mundo_tras_sitio_rezagado)
  = [ (1, "A Light in the Attic"); (2, "Tipping the Velvet") ]
  /\ last (registro mundo_tras_sitio_rezagado) = Some (resumen 1 2).
Proof. split; vm_compute; reflexivity. Qed.

(** The same crawl when every commit raises: both INSERTs are issued, the
    second book is looked up and not found, nothing reaches the file and
    the summary counts no book. *)
Example main_sitio_bloqueado :
  libros mundo_tras_sitio_bloqueado = []
  /\ pendientes mundo_tras_sitio_bloqueado = []
  /\ sql mundo_tras_sitio_bloqueado
     = [ CreateTableIfNotExists;
         SelectUpc "a897fe39b1053632"; InsertLibro;
         SelectUpc "90fa61229261140a"; InsertLibro ]
  /\ last (registro mundo_tras_sitio_bloqueado) = Some (resumen 0 2).
Proof. split_and!; vm_compute; reflexivity. Qed.

(** A listing page with an address [urljoin] rejects ends the run: [main]
    raises, the connection is not closed and no summary is logged. *)
Example main_enlace_roto :
  fst (main (fun _ => pagina_enlace_roto) unir_url red_con_pagina
         almacen_fiable almacen_fiable reloj_fijo mundo_vacio) = None
  /\ map formato
       (registro
          (snd (main (fun _ => pagina_enlace_roto) unir_url red_con_pagina
                  almacen_fiable almacen_fiable reloj_fijo mundo_vacio)))
     = ["Inicio del proceso de scraping"; "GET %s"].
Proof. split; vm_compute; reflexivity. Qed.

Lemma main_direccion_rechazada_witness :
  fst (main (fun _ => pagina_enlace_roto) unir_url red_con_pagina
         almacen_fiable almacen_fiable reloj_fijo mundo_con_libro) = None
  /\ libros (snd (main (fun _ => pagina_enlace_roto) unir_url red_con_pagina
                    almacen_fiable almacen_fiable reloj_fijo mundo_con_libro))
     = libros mundo_con_libro.
Proof.
  destruct (main_direccion_rechazada (fun _ => pagina_enlace_roto) unir_url
              red_con_pagina almacen_fiable almacen_fiable reloj_fijo
              mundo_con_libro "<html>")
    as (Hr & Hl & _).
  - reflexivity.
  - discriminate.
  - vm_compute. apply Exists_cons_tl, Exists_cons_hd. reflexivity.
  - split; [now rewrite Hr|exact Hl].
Defined.

Lemma main_resumen_witness :
  exists ti td : Z,
    last (registro mundo_tras_sitio_rezagado) = Some (resumen ti td)
    /\ 0 <= ti
       <= Z.of_nat (length (libros mundo_tras_sitio_rezagado))
          - Z.of_nat (length (libros mundo_vacio))
    /\ ((forall n, almacen_rezagado n = false) ->
        Z.of_nat (length (libros mundo_tras_sitio_rezagado))
        = Z.of_nat (length (libros mundo_vacio)) + ti)
    /\ 0 <= td
       <= Z.of_nat (pausas mundo_tras_sitio_rezagado)
          - Z.of_nat (pausas mundo_vacio).
Proof.
  apply (main_resumen sitio_lxml unir_url sitio_http almacen_fiable
           almacen_rezagado reloj_fijo mundo_vacio mundo_tras_sitio_rezagado).
  vm_compute. reflexivity.
Defined.

Lemma main_ids_witness :
  NoDup (map fila_id (libros mundo_tras_sitio)).
Proof.
  refine (proj1 (proj2 (main_ids sitio_lxml unir_url sitio_http almacen_fiable
                          almacen_fiable reloj_fijo mundo_vacio _))).
  split; constructor.
Defined.

Lemma exportar_orden_insercion_witness :
  primeros_10 (libros mundo_tras_sitio) = take 10 (libros mundo_tras_sitio).
Proof.
  apply (exportar_orden_insercion sin_floats (fun _ => EmptyString)
           "primeros_10_libros.csv" mundo_tras_sitio).
  vm_compute. repeat constructor.
Defined.




Lemma main_dos_veces_witness :
  libros (snd (main sitio_lxml unir_url sitio_http almacen_fiable
                 almacen_fiable reloj_fijo mundo_tras_sitio))
  = libros mundo_tras_sitio.
Proof.
  refine (proj2 (main_dos_veces sitio_lxml unir_url sitio_http almacen_fiable
                   almacen_fiable reloj_fijo mundo_vacio
                   (fun page =>
                      default [] (libros_en_sitio sitio_lxml unir_url
                                    sitio_http page))
                   _ _ _ _ _)).
  - intros n url. reflexivity.
  - intros page Hpage.
    repeat (apply elem_of_cons in Hpage as [->|Hpage]);
      [| | |now apply elem_of_nil in Hpage]; vm_compute; reflexivity.
  - intros page libro Hpage Hlibro.
    repeat (apply elem_of_cons in Hpage as [->|Hpage]);
      [| | |now apply elem_of_nil in Hpage].
    + vm_compute in Hlibro.
      repeat (apply elem_of_cons in Hlibro as [->|Hlibro]);
        [| |now apply elem_of_nil in Hlibro];
        vm_compute; eexists; reflexivity.
    + vm_compute in Hlibro. now apply elem_of_nil in Hlibro.
    + vm_compute in Hlibro. now apply elem_of_nil in Hlibro.
  - intros n. reflexivity.
  - intros n. reflexivity.
Defined.
